(** * hostingde/provider.go: provider configuration

    A shallow embedding of the provider of terraform-provider-hostingde
    ([hostingde/provider.go]) and the properties of its [Configure],
    [DataSources] and [Resources] methods.

    The framework types the provider touches ([types.String],
    [diag.Diagnostics], [path.Path], the [tflog] logger carried by the
    context, [os.Getenv]) are modelled by the part of their documented
    behaviour that [Configure] uses. *)

From stdpp Require Import base decidable option list strings gmap fin_maps.


(** ** [types.String]: a string attribute that is null, unknown or known *)

Inductive types_String : Type :=
  | StringNull
  | StringUnknown
  | StringValue (s : string).

Definition IsNull (v : types_String) : bool :=
  match v with StringNull => true | _ => false end.

Definition IsUnknown (v : types_String) : bool :=
  match v with StringUnknown => true | _ => false end.

(** [ValueString] is the known value, and the empty string for a null or
    unknown attribute. *)
Definition ValueString (v : types_String) : string :=
  match v with StringValue s => s | _ => "" end.

(** ** [os.Getenv] *)

Module os.

(** The process environment; [Getenv] reads a variable and gives the empty
    string for one that is not set. *)
Definition Getenv (env : gmap string string) (key : string) : string :=
  default "" (env !! key).

End os.

(** ** [path.Path] and [diag.Diagnostics] *)

Module path.

Inductive Path : Type :=
  | Empty
  | Root (name : string).

#[global] Instance Path_eq_dec : EqDecision Path.
Proof. solve_decision. Defined.

End path.

Module diag.

Inductive Severity : Type :=
  | SeverityError
  | SeverityWarning.

#[global] Instance Severity_eq_dec : EqDecision Severity.
Proof. solve_decision. Defined.

(** A diagnostic; [AttrPath] is [Some p] for an attribute diagnostic. *)
Record Diagnostic : Type := mkDiagnostic {
  Severity_of : Severity;
  Summary : string;
  Detail : string;
  AttrPath : option path.Path;
}.

#[global] Instance Diagnostic_eq_dec : EqDecision Diagnostic.
Proof. solve_decision. Defined.

Definition Diagnostics : Type := list Diagnostic.

Definition is_error (d : Diagnostic) : bool :=
  match Severity_of d with SeverityError => true | SeverityWarning => false end.

Definition HasError (diags : Diagnostics) : bool := existsb is_error diags.

Definition Contains (diags : Diagnostics) (d : Diagnostic) : bool :=
  bool_decide (d ∈ diags).

(** [Append] adds the diagnostics one by one and skips duplicates. *)
Definition Append (diags : Diagnostics) (new : list Diagnostic) : Diagnostics :=
  fold_left (fun acc d => if Contains acc d then acc else acc ++ [d]) new diags.

Definition NewAttributeErrorDiagnostic
    (p : path.Path) (summary detail : string) : Diagnostic :=
  {| Severity_of := SeverityError; Summary := summary; Detail := detail;
     AttrPath := Some p |}.

Definition AddAttributeError
    (diags : Diagnostics) (p : path.Path) (summary detail : string) : Diagnostics :=
  Append diags [NewAttributeErrorDiagnostic p summary detail].

End diag.

(** ** [strings.Contains] *)

(** [contains s substr]: [substr] occurs in [s] (Go's [strings.Contains]). *)
Fixpoint contains (s substr : string) : bool :=
  String.prefix substr s
  || match s with
     | EmptyString => false
     | String _ s' => contains s' substr
     end.

(** ** [tflog]: the logger carried by the context *)

Module tflog.

(** The levels of hclog, with [hclog.Off] for a logger that writes nothing. *)
Inductive Level : Type := LTrace | LDebug | LInfo | LWarn | LError | LOff.

Definition levelNumber (l : Level) : nat :=
  match l with
  | LTrace => 1 | LDebug => 2 | LInfo => 3 | LWarn => 4 | LError => 5 | LOff => 6
  end.

(** Values of log fields: [Configure] logs strings and one boolean. *)
Inductive Value : Type :=
  | VString (s : string)
  | VBool (b : bool).

#[global] Instance Value_eq_dec : EqDecision Value.
Proof. solve_decision. Defined.

(** What a [context.Context] holds for the provider logger: the root logger,
    if there is one, with its level, and the logger options, namely the
    fields set with [SetField], the keys whose values are masked, and the
    options that omit a record by a field key, by a regular expression on the
    message (given by its [MatchString]) or by a string in the message. Of the
    logger options these are the ones that [Configure] sets or that decide
    whether a record is written; the options that rewrite messages and field
    values by pattern ([MaskMessage...], [MaskAllFieldValues...]) are taken
    to be unset. *)
Record Context : Type := mkContext {
  RootLogger : option Level;
  Fields : gmap string Value;
  MaskedKeys : list string;
  OmitLogWithFieldKeys : list string;
  OmitLogWithMessageRegexes : list (string → bool);
  OmitLogWithMessageStrings : list string;
}.

(** [context.Background()]: no provider root logger, no options. *)
Definition Background : Context :=
  {| RootLogger := None; Fields := ∅; MaskedKeys := [];
     OmitLogWithFieldKeys := []; OmitLogWithMessageRegexes := [];
     OmitLogWithMessageStrings := [] |}.

Record Record_ : Type := mkRecord {
  level : Level;
  msg : string;
  fields : gmap string Value;
}.

Definition SetField (ctx : Context) (key : string) (value : Value) : Context :=
  {| RootLogger := RootLogger ctx;
     Fields := <[key := value]> (Fields ctx); MaskedKeys := MaskedKeys ctx;
     OmitLogWithFieldKeys := OmitLogWithFieldKeys ctx;
     OmitLogWithMessageRegexes := OmitLogWithMessageRegexes ctx;
     OmitLogWithMessageStrings := OmitLogWithMessageStrings ctx |}.

Definition MaskFieldValuesWithFieldKeys (ctx : Context) (keys : list string) : Context :=
  {| RootLogger := RootLogger ctx;
     Fields := Fields ctx; MaskedKeys := MaskedKeys ctx ++ keys;
     OmitLogWithFieldKeys := OmitLogWithFieldKeys ctx;
     OmitLogWithMessageRegexes := OmitLogWithMessageRegexes ctx;
     OmitLogWithMessageStrings := OmitLogWithMessageStrings ctx |}.

Definition logMaskingReplacementString : string := "***".

(** A record is omitted if one of the configured keys is among its fields, or
    one of the configured expressions matches its message, or one of the
    configured strings occurs in its message. *)
Definition ShouldOmit (ctx : Context) (m : string) (fs : gmap string Value) : bool :=
  existsb (fun k => bool_decide (is_Some (fs !! k))) (OmitLogWithFieldKeys ctx)
  || existsb (fun matchString => matchString m) (OmitLogWithMessageRegexes ctx)
  || existsb (fun s => contains m s) (OmitLogWithMessageStrings ctx).

(** Every field whose key is masked has its value replaced. *)
Definition ApplyMask (keys : list string) (fs : gmap string Value) : gmap string Value :=
  foldr (fun k m => alter (fun _ => VString logMaskingReplacementString) k m) fs keys.

(** What one log call writes. Without a provider root logger the call is a
    no-op; a record that the options omit is not written; the logger drops a
    record below its level. A record that is written carries the fields of
    the context and the additional fields of the call (which win on a shared
    key), after masking. *)
Definition emit (l : Level) (ctx : Context) (m : string)
    (additionalFields : gmap string Value) : option Record_ :=
  match RootLogger ctx with
  | None => None
  | Some threshold =>
      if ShouldOmit ctx m (additionalFields ∪ Fields ctx) then None
      else if levelNumber l <? levelNumber threshold then None
      else Some {| level := l; msg := m;
                   fields := ApplyMask (MaskedKeys ctx) (additionalFields ∪ Fields ctx) |}
  end.

Definition Info (ctx : Context) (m : string) (additionalFields : gmap string Value)
    : option Record_ :=
  emit LInfo ctx m additionalFields.

Definition Debug (ctx : Context) (m : string) (additionalFields : gmap string Value)
    : option Record_ :=
  emit LDebug ctx m additionalFields.

End tflog.

Module tfsdklog.

(** [tfsdklog.NewRootProviderLogger]: the context with a provider root logger
    at the given level. *)
Definition NewRootProviderLogger (ctx : tflog.Context) (level : tflog.Level)
    : tflog.Context :=
  {| tflog.RootLogger := Some level;
     tflog.Fields := tflog.Fields ctx; tflog.MaskedKeys := tflog.MaskedKeys ctx;
     tflog.OmitLogWithFieldKeys := tflog.OmitLogWithFieldKeys ctx;
     tflog.OmitLogWithMessageRegexes := tflog.OmitLogWithMessageRegexes ctx;
     tflog.OmitLogWithMessageStrings := tflog.OmitLogWithMessageStrings ctx |}.

End tfsdklog.

(** ** The provider *)

Definition defaultBaseURL : string := "https://secure.hosting.de/api/dns/v1/json".

(** [hostingdeProviderModel] maps provider schema data to a Go type. *)
Record hostingdeProviderModel : Type := mkModel {
  AccountId : types_String;
  AuthToken : types_String;
  BaseUrl : types_String;
}.

(** Modelled from the spec: [NewClient] and the [Client] it returns (client.go
    is not among the sources). Construction is pure data capture of the
    resolved account id, auth token and base URL. *)
Record Client : Type := NewClient {
  client_account_id : string;
  client_auth_token : string;
  client_base_url : string;
}.

(** [req.Config]: what [req.Config.Get(ctx, &config)] yields, the
    diagnostics of decoding and the model it fills in. *)
Record tfsdk_Config : Type := mkConfig {
  Get_diags : diag.Diagnostics;
  Get_model : hostingdeProviderModel;
}.

Definition Get (c : tfsdk_Config) : diag.Diagnostics * hostingdeProviderModel :=
  (Get_diags c, Get_model c).

Record ConfigureRequest : Type := mkRequest {
  Config : tfsdk_Config;
}.

Record ConfigureResponse : Type := mkResponse {
  Diagnostics : diag.Diagnostics;
  DataSourceData : option Client;
  ResourceData : option Client;
}.

(** The zero [provider.ConfigureResponse] that the framework hands to
    [Configure]. *)
Definition emptyResponse : ConfigureResponse :=
  {| Diagnostics := []; DataSourceData := None; ResourceData := None |}.

(** A request whose configuration decodes to [config] without diagnostics. *)
Definition requestOf (config : hostingdeProviderModel) : ConfigureRequest :=
  {| Config := {| Get_diags := []; Get_model := config |} |}.

Definition withDiagnostics (resp : ConfigureResponse) (d : diag.Diagnostics) : ConfigureResponse :=
  {| Diagnostics := d; DataSourceData := DataSourceData resp;
     ResourceData := ResourceData resp |}.

Definition withDataSourceData (resp : ConfigureResponse) (c : Client) : ConfigureResponse :=
  {| Diagnostics := Diagnostics resp; DataSourceData := Some c;
     ResourceData := ResourceData resp |}.

Definition withResourceData (resp : ConfigureResponse) (c : Client) : ConfigureResponse :=
  {| Diagnostics := Diagnostics resp; DataSourceData := DataSourceData resp;
     ResourceData := Some c |}.

(** The local variables [account_id], [auth_token] and [base_url]. *)
Record Locals : Type := mkLocals {
  account_id : string;
  auth_token : string;
  base_url : string;
}.

(** Lines 101-115: default values to environment variables, but override with
    the configuration value if set. *)
Definition configuredValues (env : gmap string string) (config : hostingdeProviderModel) : Locals :=
  let account_id := os.Getenv env "HOSTINGDE_ACCOUNT_ID" in
  let auth_token := os.Getenv env "HOSTINGDE_AUTH_TOKEN" in
  let base_url := os.Getenv env "HOSTINGDE_BASE_URL" in
  let account_id :=
    if negb (IsNull (AccountId config)) then ValueString (AccountId config) else account_id in
  let auth_token :=
    if negb (IsNull (AuthToken config)) then ValueString (AuthToken config) else auth_token in
  let base_url :=
    if negb (IsNull (BaseUrl config)) then ValueString (BaseUrl config) else base_url in
  {| account_id := account_id; auth_token := auth_token; base_url := base_url |}.

(** Lines 118-120: default for the API base URL. *)
Definition defaultedValues (vars : Locals) : Locals :=
  {| account_id := account_id vars;
     auth_token := auth_token vars;
     base_url := if String.eqb (base_url vars) "" then defaultBaseURL else base_url vars |}.

(** [Configure]: the response it leaves in [resp] and, for each log call it
    makes, in order, the record that the call writes ([None] when it writes
    none). *)
Definition Configure (ctx : tflog.Context) (env : gmap string string)
    (req : ConfigureRequest) (resp : ConfigureResponse)
    : ConfigureResponse * list (option tflog.Record_) :=
  let log := [tflog.Info ctx "Configuring hosting.de client" ∅] in
  let '(diags, config) := Get (Config req) in
  let resp := withDiagnostics resp (diag.Append (Diagnostics resp) diags) in
  if diag.HasError (Diagnostics resp) then (resp, log) else
  let resp :=
    if IsUnknown (AccountId config)
    then withDiagnostics resp
           (diag.AddAttributeError (Diagnostics resp) (path.Root "account_id")
              "Unknown hosting.de API account ID"
              ("The provider cannot create the hosting.de API client as there is an unknown configuration value for the hosting.de API account ID. " +:+
               "Either target apply the source of the value first, set the value statically in the configuration, or use the HOSTINGDE_ACCOUNT_ID environment variable."))
    else resp in
  let resp :=
    if IsUnknown (AuthToken config)
    then withDiagnostics resp
           (diag.AddAttributeError (Diagnostics resp) (path.Root "auth_token")
              "Unknown hosting.de API auth token"
              ("The provider cannot create the hosting.de API client as there is an unknown configuration value for the hosting.de API auth token. " +:+
               "Either target apply the source of the value first, set the value statically in the configuration, or use the HOSTINGDE_AUTH_TOKEN environment variable."))
    else resp in
  if diag.HasError (Diagnostics resp) then (resp, log) else
  let vars := defaultedValues (configuredValues env config) in
  let resp :=
    if String.eqb (auth_token vars) ""
    then withDiagnostics resp
           (diag.AddAttributeError (Diagnostics resp) (path.Root "auth_token")
              "Missing hosting.de API auth token"
              ("The provider cannot create the hosting.de API client as there is a missing or empty value for the hosting.de API auth token. " +:+
               "Set the auth_token value in the configuration or use the HOSTINGDE_AUTH_TOKEN environment variable. " +:+
               "If either is already set, ensure the value is not empty."))
    else resp in
  if diag.HasError (Diagnostics resp) then (resp, log) else
  let ctx := tflog.SetField ctx "hostingde_account_id" (tflog.VString (account_id vars)) in
  let ctx := tflog.SetField ctx "hostingde_auth_token" (tflog.VString (auth_token vars)) in
  let ctx := tflog.SetField ctx "hostingde_base_url" (tflog.VString (base_url vars)) in
  let ctx := tflog.MaskFieldValuesWithFieldKeys ctx ["hostingde_auth_token"] in
  let log := log ++ [tflog.Debug ctx "Creating hosting.de client" ∅] in
  let client := NewClient (account_id vars) (auth_token vars) (base_url vars) in
  let resp := withDataSourceData resp client in
  let resp := withResourceData resp client in
  let log := log ++ [tflog.Info ctx "Configured hosting.de client" {["success" := tflog.VBool true]}] in
  (resp, log).

(** ** The published capability lists *)

Section Registry.

(** The types and constructors of the data sources and resources; the two
    resource constructors live in files of their own. *)
Variables (DataSource Resource : Type).
Variables (NewZoneResource NewRecordResource : unit -> Resource).

Definition DataSources (ctx : tflog.Context) : list (unit -> DataSource) := [].

Definition Resources (ctx : tflog.Context) : list (unit -> Resource) :=
  [NewZoneResource; NewRecordResource].

End Registry.

(** ** Vocabulary for the outcomes of [Configure] *)

(** The diagnostics of the response once those of decoding are appended. *)
Definition decodedDiagnostics (req : ConfigureRequest) (resp : ConfigureResponse)
    : diag.Diagnostics :=
  diag.Append (Diagnostics resp) (Get_diags (Config req)).

(** The three diagnostics that [Configure] adds (lines 77-82, 86-91 and
    125-131). *)
Definition unknownAccountId : diag.Diagnostic :=
  diag.NewAttributeErrorDiagnostic (path.Root "account_id")
    "Unknown hosting.de API account ID"
    ("The provider cannot create the hosting.de API client as there is an unknown configuration value for the hosting.de API account ID. " +:+
     "Either target apply the source of the value first, set the value statically in the configuration, or use the HOSTINGDE_ACCOUNT_ID environment variable.").

Definition unknownAuthToken : diag.Diagnostic :=
  diag.NewAttributeErrorDiagnostic (path.Root "auth_token")
    "Unknown hosting.de API auth token"
    ("The provider cannot create the hosting.de API client as there is an unknown configuration value for the hosting.de API auth token. " +:+
     "Either target apply the source of the value first, set the value statically in the configuration, or use the HOSTINGDE_AUTH_TOKEN environment variable.").

Definition missingAuthToken : diag.Diagnostic :=
  diag.NewAttributeErrorDiagnostic (path.Root "auth_token")
    "Missing hosting.de API auth token"
    ("The provider cannot create the hosting.de API client as there is a missing or empty value for the hosting.de API auth token. " +:+
     "Set the auth_token value in the configuration or use the HOSTINGDE_AUTH_TOKEN environment variable. " +:+
     "If either is already set, ensure the value is not empty.").

(** The errors of the unknown-value guard, in the order they are added. *)
Definition unknownDiagnostics (config : hostingdeProviderModel) : diag.Diagnostics :=
  (if IsUnknown (AccountId config) then [unknownAccountId] else []) ++
  (if IsUnknown (AuthToken config) then [unknownAuthToken] else []).

(** The values handed to [NewClient]: lines 101-120. *)
Definition resolvedValues (env : gmap string string) (config : hostingdeProviderModel) : Locals :=
  defaultedValues (configuredValues env config).

Definition clientOf (vars : Locals) : Client :=
  NewClient (account_id vars) (auth_token vars) (base_url vars).

(** The context after lines 138-141. *)
Definition clientContext (ctx : tflog.Context) (vars : Locals) : tflog.Context :=
  tflog.MaskFieldValuesWithFieldKeys
    (tflog.SetField
       (tflog.SetField
          (tflog.SetField ctx "hostingde_account_id" (tflog.VString (account_id vars)))
          "hostingde_auth_token" (tflog.VString (auth_token vars)))
       "hostingde_base_url" (tflog.VString (base_url vars)))
    ["hostingde_auth_token"].

Definition configuringRecord (ctx : tflog.Context) : option tflog.Record_ :=
  tflog.Info ctx "Configuring hosting.de client" ∅.

Definition creatingRecord (ctx : tflog.Context) (vars : Locals) : option tflog.Record_ :=
  tflog.Debug (clientContext ctx vars) "Creating hosting.de client" ∅.

Definition configuredRecord (ctx : tflog.Context) (vars : Locals)
    : option tflog.Record_ :=
  tflog.Info (clientContext ctx vars) "Configured hosting.de client"
    {["success" := tflog.VBool true]}.

(** The response and the records of a run that makes a client. *)
Definition successResponse (ds : diag.Diagnostics) (vars : Locals) : ConfigureResponse :=
  {| Diagnostics := ds;
     DataSourceData := Some (clientOf vars);
     ResourceData := Some (clientOf vars) |}.

Definition successLog (ctx : tflog.Context) (vars : Locals)
    : list (option tflog.Record_) :=
  [configuringRecord ctx; creatingRecord ctx vars; configuredRecord ctx vars].

(** The four ways [Configure] ends, by the line of the return. *)
Inductive ConfigureOutcome (ctx : tflog.Context) (env : gmap string string)
    (req : ConfigureRequest) (resp : ConfigureResponse)
    : ConfigureResponse * list (option tflog.Record_) → Prop :=
  | ReturnDecodeError :
      diag.HasError (decodedDiagnostics req resp) = true →
      ConfigureOutcome ctx env req resp
        (withDiagnostics resp (decodedDiagnostics req resp), [configuringRecord ctx])
  | ReturnUnknown :
      diag.HasError (decodedDiagnostics req resp) = false →
      IsUnknown (AccountId (Get_model (Config req)))
        || IsUnknown (AuthToken (Get_model (Config req))) = true →
      ConfigureOutcome ctx env req resp
        (withDiagnostics resp
           (decodedDiagnostics req resp ++ unknownDiagnostics (Get_model (Config req))),
         [configuringRecord ctx])
  | ReturnMissing :
      diag.HasError (decodedDiagnostics req resp) = false →
      IsUnknown (AccountId (Get_model (Config req))) = false →
      IsUnknown (AuthToken (Get_model (Config req))) = false →
      auth_token (resolvedValues env (Get_model (Config req))) = "" →
      ConfigureOutcome ctx env req resp
        (withDiagnostics resp (decodedDiagnostics req resp ++ [missingAuthToken]),
         [configuringRecord ctx])
  | ReturnConfigured :
      diag.HasError (decodedDiagnostics req resp) = false →
      IsUnknown (AccountId (Get_model (Config req))) = false →
      IsUnknown (AuthToken (Get_model (Config req))) = false →
      auth_token (resolvedValues env (Get_model (Config req))) ≠ "" →
      ConfigureOutcome ctx env req resp
        (successResponse (decodedDiagnostics req resp)
           (resolvedValues env (Get_model (Config req))),
         successLog ctx (resolvedValues env (Get_model (Config req)))).

(** The model with another auth token. *)
Definition setAuthToken (config : hostingdeProviderModel) (v : types_String)
    : hostingdeProviderModel :=
  {| AccountId := AccountId config; AuthToken := v; BaseUrl := BaseUrl config |}.

(** ** Vocabulary for redaction *)




(** ** [Metadata] and [Schema] *)

(** [provider.MetadataResponse]. *)
Record MetadataResponse : Type := mkMetadataResponse {
  TypeName : string;
  Version : string;
}.

(** [Metadata] returns the provider type name; it reads neither the context
    nor the request. *)
Definition Metadata (resp : MetadataResponse) : MetadataResponse :=
  {| TypeName := "hostingde"; Version := Version resp |}.

Module schema.

(** [schema.StringAttribute], with the fields the provider sets and
    [Required], which it leaves at its zero value. *)
Record StringAttribute : Type := mkStringAttribute {
  Description : string;
  Required : bool;
  Optional : bool;
  Sensitive : bool;
}.

Record Schema : Type := mkSchema {
  Attributes : gmap string StringAttribute;
}.

End schema.

(** [provider.SchemaResponse]. *)
Record SchemaResponse : Type := mkSchemaResponse {
  Schema_of : schema.Schema;
  SchemaDiagnostics : diag.Diagnostics;
}.

(** [Schema] defines the provider-level schema for configuration data; it
    reads neither the context nor the request. *)
Definition Schema (resp : SchemaResponse) : SchemaResponse :=
  {| Schema_of :=
       {| schema.Attributes :=
            {[ "account_id" :=
                 {| schema.Description := "Account ID for hosting.de API. May also be provided via HOSTINGDE_ACCOUNT_ID environment variable.";
                    schema.Required := false;
                    schema.Optional := true;
                    schema.Sensitive := false |};
               "auth_token" :=
                 {| schema.Description := "Auth token for hosting.de API. May also be provided via HOSTINGDE_AUTH_TOKEN environment variable.";
                    schema.Required := false;
                    schema.Optional := true;
                    schema.Sensitive := true |};
               "base_url" :=
                 {| schema.Description := "Base URL for hosting.de API. May also be provided via HOSTINGDE_BASE_URL environment variable.";
                    schema.Required := false;
                    schema.Optional := true;
                    schema.Sensitive := false |} ]} |};
     SchemaDiagnostics := SchemaDiagnostics resp |}.

(** ** Vocabulary for the further properties *)

(** The request with another decoded model and the same decoding
    diagnostics. *)
Definition setModel (req : ConfigureRequest) (config : hostingdeProviderModel)
    : ConfigureRequest :=
  {| Config := {| Get_diags := Get_diags (Config req); Get_model := config |} |}.

(** The records that a list of log calls wrote. *)
Definition writtenRecords (log : list (option tflog.Record_)) : list tflog.Record_ :=
  omap id log.

(** The records logged after line 141, once the fields are set: those written
    by the log calls after the first. *)
Definition clientRecords (log : list (option tflog.Record_)) : list tflog.Record_ :=
  writtenRecords (drop 1 log).

(** The name of the log field that carries a schema attribute. *)
Definition logFieldOf (typeName attribute : string) : string :=
  typeName +:+ "_" +:+ attribute.

(** ** Diagnostics: errors survive [Append], and a new error is added last *)

Lemma HasError_app (a b : diag.Diagnostics) :
  diag.HasError (a ++ b) = diag.HasError a || diag.HasError b.
Proof. unfold diag.HasError. apply existsb_app. Qed.

Lemma HasError_elem (ds : diag.Diagnostics) (d : diag.Diagnostic) :
  d ∈ ds → diag.is_error d = true → diag.HasError ds = true.
Proof.
  intros Hin Herr. unfold diag.HasError. apply existsb_exists.
  exists d. split; [by apply list_elem_of_In | done].
Qed.

Lemma Append_cons (ds : diag.Diagnostics) (d : diag.Diagnostic) (new : list diag.Diagnostic) :
  diag.Append ds (d :: new)
  = diag.Append (if diag.Contains ds d then ds else ds ++ [d]) new.
Proof. reflexivity. Qed.

Lemma Append_HasError (new : list diag.Diagnostic) :
  ∀ ds, diag.HasError (diag.Append ds new) = diag.HasError ds || diag.HasError new.
Proof.
  induction new as [|d new IH]; intros ds.
  - cbn. by rewrite orb_false_r.
  - rewrite Append_cons, IH. unfold diag.Contains.
    case_bool_decide as Hin.
    + change (diag.HasError (d :: new)) with (diag.is_error d || diag.HasError new).
      destruct (diag.is_error d) eqn:Hd; [|done].
      by rewrite (HasError_elem ds d Hin Hd).
    + rewrite HasError_app. cbn. by rewrite orb_false_r, orb_assoc.
Qed.

Lemma Append_error_fresh (ds : diag.Diagnostics) (d : diag.Diagnostic) :
  diag.HasError ds = false → diag.is_error d = true →
  diag.Append ds [d] = ds ++ [d].
Proof.
  intros Hds Hd. cbn. unfold diag.Contains.
  case_bool_decide as Hin; [|done].
  by rewrite (HasError_elem ds d Hin Hd) in Hds.
Qed.

Lemma Append_two_errors (ds : diag.Diagnostics) (d1 d2 : diag.Diagnostic) :
  diag.HasError ds = false → diag.is_error d2 = true → d1 ≠ d2 →
  diag.Append (ds ++ [d1]) [d2] = ds ++ [d1; d2].
Proof.
  intros Hds Hd Hne. cbn. unfold diag.Contains.
  case_bool_decide as Hin.
  - apply elem_of_app in Hin as [Hin|Hin].
    + by rewrite (HasError_elem ds d2 Hin Hd) in Hds.
    + apply list_elem_of_singleton in Hin. congruence.
  - by rewrite <- app_assoc.
Qed.

(** ** The four ways [Configure] ends *)

(** Unfold [Configure] up to the first test and name the decoded
    diagnostics and the model. *)
Ltac enter_Configure req resp :=
  unfold Configure, Get, diag.AddAttributeError;
  cbn [Diagnostics withDiagnostics];
  change (diag.Append (Diagnostics resp) (Get_diags (Config req)))
    with (decodedDiagnostics req resp);
  change (diag.NewAttributeErrorDiagnostic (path.Root "account_id") _ _)
    with unknownAccountId;
  change (diag.NewAttributeErrorDiagnostic (path.Root "auth_token")
            "Unknown hosting.de API auth token" _)
    with unknownAuthToken;
  change (diag.NewAttributeErrorDiagnostic (path.Root "auth_token")
            "Missing hosting.de API auth token" _)
    with missingAuthToken.

(** Line 70: decoding reported an error (or the response held one). *)
Lemma Configure_decode_error (ctx : tflog.Context) (env : gmap string string)
    (req : ConfigureRequest) (resp : ConfigureResponse) :
  diag.HasError (decodedDiagnostics req resp) = true →
  Configure ctx env req resp
  = (withDiagnostics resp (decodedDiagnostics req resp), [configuringRecord ctx]).
Proof. intros H. enter_Configure req resp. by rewrite H. Qed.

(** Line 94: the account id or the auth token is unknown. *)
Lemma Configure_unknown (ctx : tflog.Context) (env : gmap string string)
    (req : ConfigureRequest) (resp : ConfigureResponse) :
  diag.HasError (decodedDiagnostics req resp) = false →
  IsUnknown (AccountId (Get_model (Config req)))
    || IsUnknown (AuthToken (Get_model (Config req))) = true →
  Configure ctx env req resp
  = (withDiagnostics resp
       (decodedDiagnostics req resp ++ unknownDiagnostics (Get_model (Config req))),
     [configuringRecord ctx]).
Proof.
  intros H Hu. enter_Configure req resp. rewrite H.
  unfold unknownDiagnostics.
  destruct (IsUnknown (AccountId (Get_model (Config req)))) eqn:Ha;
    destruct (IsUnknown (AuthToken (Get_model (Config req)))) eqn:Ht;
    try discriminate Hu;
    cbn [Diagnostics withDiagnostics DataSourceData ResourceData app].
  - rewrite (Append_error_fresh _ unknownAccountId H eq_refl).
    rewrite (Append_two_errors _ unknownAccountId unknownAuthToken H eq_refl)
      by discriminate.
    rewrite HasError_app, orb_true_r. reflexivity.
  - rewrite (Append_error_fresh _ unknownAccountId H eq_refl).
    rewrite HasError_app, orb_true_r. reflexivity.
  - rewrite (Append_error_fresh _ unknownAuthToken H eq_refl).
    rewrite HasError_app, orb_true_r. reflexivity.
Qed.

(** Line 134: the auth token is empty. *)
Lemma Configure_missing (ctx : tflog.Context) (env : gmap string string)
    (req : ConfigureRequest) (resp : ConfigureResponse) :
  diag.HasError (decodedDiagnostics req resp) = false →
  IsUnknown (AccountId (Get_model (Config req))) = false →
  IsUnknown (AuthToken (Get_model (Config req))) = false →
  auth_token (resolvedValues env (Get_model (Config req))) = "" →
  Configure ctx env req resp
  = (withDiagnostics resp (decodedDiagnostics req resp ++ [missingAuthToken]),
     [configuringRecord ctx]).
Proof.
  intros H Ha Ht He. enter_Configure req resp. rewrite H, Ha, Ht.
  cbn [Diagnostics withDiagnostics].
  fold (resolvedValues env (Get_model (Config req))). rewrite He.
  cbn [String.eqb Diagnostics withDiagnostics DataSourceData ResourceData].
  rewrite (Append_error_fresh _ missingAuthToken H eq_refl).
  rewrite ?H, HasError_app, orb_true_r. reflexivity.
Qed.

(** Line 153: a client is made and published. *)
Lemma Configure_success (ctx : tflog.Context) (env : gmap string string)
    (req : ConfigureRequest) (resp : ConfigureResponse) :
  diag.HasError (decodedDiagnostics req resp) = false →
  IsUnknown (AccountId (Get_model (Config req))) = false →
  IsUnknown (AuthToken (Get_model (Config req))) = false →
  auth_token (resolvedValues env (Get_model (Config req))) ≠ "" →
  Configure ctx env req resp
  = (successResponse (decodedDiagnostics req resp)
       (resolvedValues env (Get_model (Config req))),
     successLog ctx (resolvedValues env (Get_model (Config req)))).
Proof.
  intros H Ha Ht He. enter_Configure req resp. rewrite H, Ha, Ht.
  cbn [Diagnostics withDiagnostics].
  fold (resolvedValues env (Get_model (Config req))).
  apply String.eqb_neq in He. rewrite He.
  cbn [Diagnostics withDiagnostics]. rewrite ?H. reflexivity.
Qed.

(** [Configure] always ends in one of the four ways. *)
Lemma Configure_outcome (ctx : tflog.Context) (env : gmap string string)
    (req : ConfigureRequest) (resp : ConfigureResponse) :
  ConfigureOutcome ctx env req resp (Configure ctx env req resp).
Proof.
  destruct (diag.HasError (decodedDiagnostics req resp)) eqn:H.
  { rewrite Configure_decode_error by done. by constructor. }
  destruct (IsUnknown (AccountId (Get_model (Config req)))) eqn:Ha.
  { rewrite Configure_unknown by (by rewrite ?Ha). apply ReturnUnknown; by rewrite ?Ha. }
  destruct (IsUnknown (AuthToken (Get_model (Config req)))) eqn:Ht.
  { rewrite Configure_unknown by (by rewrite ?Ha, ?Ht).
    apply ReturnUnknown; by rewrite ?Ha, ?Ht. }
  destruct (decide (auth_token (resolvedValues env (Get_model (Config req))) = "")) as [He|He].
  - rewrite Configure_missing by done. by apply ReturnMissing.
  - rewrite Configure_success by done. by apply ReturnConfigured.
Qed.

(** The unknown-value guard leaves an error exactly when a field is unknown. *)
Lemma HasError_unknownDiagnostics (config : hostingdeProviderModel) :
  diag.HasError (unknownDiagnostics config)
  = IsUnknown (AccountId config) || IsUnknown (AuthToken config).
Proof.
  unfold unknownDiagnostics.
  by destruct (IsUnknown (AccountId config)), (IsUnknown (AuthToken config)).
Qed.

(** The base URL handed to the client is never empty. *)
Lemma resolved_base_url_nonempty (env : gmap string string) (config : hostingdeProviderModel) :
  base_url (resolvedValues env config) ≠ "".
Proof.
  unfold resolvedValues, defaultedValues. cbn [base_url].
  destruct (String.eqb _ "") eqn:He; [discriminate|].
  by apply String.eqb_neq.
Qed.

(** [Configure] reads the environment and the model only through the
    unknown-value guard and the values of lines 101-115. *)
Lemma Configure_ext (ctx : tflog.Context) (env env' : gmap string string)
    (req req' : ConfigureRequest) (resp : ConfigureResponse) :
  Get_diags (Config req) = Get_diags (Config req') →
  IsUnknown (AccountId (Get_model (Config req)))
    = IsUnknown (AccountId (Get_model (Config req'))) →
  IsUnknown (AuthToken (Get_model (Config req)))
    = IsUnknown (AuthToken (Get_model (Config req'))) →
  configuredValues env (Get_model (Config req))
    = configuredValues env' (Get_model (Config req')) →
  Configure ctx env req resp = Configure ctx env' req' resp.
Proof.
  intros Hd Ha Ht Hv. unfold Configure, Get.
  cbn [Diagnostics withDiagnostics]. by rewrite Hd, Ha, Ht, Hv.
Qed.

(** Two environments that agree on a variable give it the same value. *)
Lemma Getenv_agree (env env' : gmap string string) (key : string) :
  env !! key = env' !! key → os.Getenv env key = os.Getenv env' key.
Proof. unfold os.Getenv. by intros ->. Qed.

(** The outcome on a clean decoding into the empty response, when the
    unknown-value guard fires. *)
Lemma Configure_requestOf_unknown (ctx : tflog.Context) (env : gmap string string)
    (config : hostingdeProviderModel) :
  IsUnknown (AccountId config) || IsUnknown (AuthToken config) = true →
  Configure ctx env (requestOf config) emptyResponse
  = ({| Diagnostics := unknownDiagnostics config;
        DataSourceData := None; ResourceData := None |},
     [configuringRecord ctx]).
Proof. intros Hu. by rewrite Configure_unknown. Qed.

Lemma Configure_requestOf_missing (ctx : tflog.Context) (env : gmap string string)
    (config : hostingdeProviderModel) :
  IsUnknown (AccountId config) = false → IsUnknown (AuthToken config) = false →
  auth_token (resolvedValues env config) = "" →
  Configure ctx env (requestOf config) emptyResponse
  = ({| Diagnostics := [missingAuthToken];
        DataSourceData := None; ResourceData := None |},
     [configuringRecord ctx]).
Proof. intros Ha Ht He. by rewrite Configure_missing. Qed.

Lemma Configure_requestOf_success (ctx : tflog.Context) (env : gmap string string)
    (config : hostingdeProviderModel) :
  IsUnknown (AccountId config) = false → IsUnknown (AuthToken config) = false →
  auth_token (resolvedValues env config) ≠ "" →
  Configure ctx env (requestOf config) emptyResponse
  = (successResponse [] (resolvedValues env config),
     successLog ctx (resolvedValues env config)).
Proof. intros Ha Ht He. by rewrite Configure_success. Qed.

(** ** Masking *)

Lemma lookup_ApplyMask (keys : list string) (fs : gmap string tflog.Value) (k : string) :
  tflog.ApplyMask keys fs !! k
  = if bool_decide (k ∈ keys)
    then (fun _ => tflog.VString tflog.logMaskingReplacementString) <$> fs !! k
    else fs !! k.
Proof.
  induction keys as [|k' keys IH]; [done|].
  cbn [tflog.ApplyMask foldr]. fold (tflog.ApplyMask keys fs).
  rewrite lookup_alter.
  destruct (decide (k' = k)) as [->|Hne]; rewrite IH.
  - rewrite (bool_decide_eq_true_2 (k ∈ k :: keys)) by (apply elem_of_cons; by left).
    case_bool_decide; [|done]. by destruct (fs !! k).
  - case_bool_decide as Hin.
    + rewrite bool_decide_eq_true_2; [done|]. apply elem_of_cons. by right.
    + rewrite bool_decide_eq_false_2; [done|].
      intros [?|?]%elem_of_cons; congruence.
Qed.







(** A record that a log call writes has the level and the message of the call
    and the masked fields of the context and the call. *)
Lemma emit_Some (l : tflog.Level) (ctx : tflog.Context) (m : string)
    (additional : gmap string tflog.Value) (r : tflog.Record_) :
  tflog.emit l ctx m additional = Some r →
  r = {| tflog.level := l; tflog.msg := m;
         tflog.fields :=
           tflog.ApplyMask (tflog.MaskedKeys ctx) (additional ∪ tflog.Fields ctx) |}.
Proof.
  unfold tflog.emit. destruct (tflog.RootLogger ctx); [|done].
  destruct (tflog.ShouldOmit _ _ _); [done|].
  destruct (_ <? _); [done|]. by intros [= <-].
Qed.

(** The fields of the context after lines 138-140. *)
Lemma clientContext_fields (ctx : tflog.Context) (vars : Locals) :
  tflog.Fields (clientContext ctx vars) !! "hostingde_account_id"
  = Some (tflog.VString (account_id vars))
  ∧ tflog.Fields (clientContext ctx vars) !! "hostingde_auth_token"
    = Some (tflog.VString (auth_token vars))
  ∧ tflog.Fields (clientContext ctx vars) !! "hostingde_base_url"
    = Some (tflog.VString (base_url vars)).
Proof.
  cbn [clientContext tflog.MaskFieldValuesWithFieldKeys tflog.SetField tflog.Fields].
  repeat split.
  - by rewrite !lookup_insert_ne, lookup_insert_eq by done.
  - by rewrite lookup_insert_ne, lookup_insert_eq by done.
  - by rewrite lookup_insert_eq.
Qed.

(** The records written after line 141 carry the client context. *)
Lemma successLog_clientRecords (ctx : tflog.Context) (vars : Locals) (r : tflog.Record_) :
  r ∈ clientRecords (successLog ctx vars) →
  ∃ additional,
    tflog.fields r
    = tflog.ApplyMask
        (tflog.MaskedKeys ctx ++ ["hostingde_auth_token"])
        (additional ∪ tflog.Fields (clientContext ctx vars))
    ∧ ∀ k, is_Some (additional !! k) → k = "success".
Proof.
  unfold clientRecords, writtenRecords, successLog. cbn [drop].
  intros (o & Ho & Hr)%list_elem_of_omap. cbn [id] in Hr. subst o.
  apply elem_of_cons in Ho as [Ho|Ho]; [|apply list_elem_of_singleton in Ho].
  - symmetry in Ho. apply emit_Some in Ho as ->. exists ∅. split; [done|].
    intros k [? Hk]. by rewrite lookup_empty in Hk.
  - symmetry in Ho. apply emit_Some in Ho as ->.
    exists {["success" := tflog.VBool true]}. split; [done|].
    intros k [? Hk]. by apply lookup_singleton_Some in Hk as [<- _].
Qed.






(** ** The claims *)




(** C2, as stated, fails: with HOSTINGDE_AUTH_TOKEN set to a token, an empty
    auth token in the configuration replaces it and resolution fails, while
    an absent one leaves the environment token in place and resolution
    succeeds. *)
Lemma C2_counterexample :
  let env : gmap string string := {[ "HOSTINGDE_AUTH_TOKEN" := "tok2" ]} in
  let config := mkModel StringNull StringNull StringNull in
  (Configure tflog.Background env
     (requestOf (setAuthToken config (StringValue ""))) emptyResponse).1
  = {| Diagnostics := [missingAuthToken]; DataSourceData := None; ResourceData := None |}
  ∧ (Configure tflog.Background env
       (requestOf (setAuthToken config StringNull)) emptyResponse).1
    = {| Diagnostics := [];
         DataSourceData := Some (NewClient "" "tok2" defaultBaseURL);
         ResourceData := Some (NewClient "" "tok2" defaultBaseURL) |}.
Proof. split; vm_compute; reflexivity. Qed.

(** C2, amended. When HOSTINGDE_AUTH_TOKEN is unset or empty, resolution with
    a present-but-empty auth token has the same outcome as resolution with the
    auth token absent; so it has when the account id is unknown, where both
    end at the unknown-value guard. Whatever the variable holds, the
    present-but-empty token replaces it: no client handle is published, and
    unless the account id is unknown the diagnostics are the
    missing-auth-token error. When the variable holds a non-empty token and
    the account id is not unknown, resolution with the auth token absent
    succeeds with the token of the environment, so that the two outcomes
    differ. *)
Theorem C2_empty_token
    (ctx : tflog.Context) (env : gmap string string) (config : hostingdeProviderModel) :
  let present := requestOf (setAuthToken config (StringValue "")) in
  let absent := requestOf (setAuthToken config StringNull) in
  (env !! "HOSTINGDE_AUTH_TOKEN" = None ∨ env !! "HOSTINGDE_AUTH_TOKEN" = Some "" →
     Configure ctx env present emptyResponse = Configure ctx env absent emptyResponse)
  ∧ DataSourceData (Configure ctx env present emptyResponse).1 = None
  ∧ ResourceData (Configure ctx env present emptyResponse).1 = None
  ∧ (IsUnknown (AccountId config) = false →
     Diagnostics (Configure ctx env present emptyResponse).1 = [missingAuthToken])
  ∧ (AccountId config = StringUnknown →
     Configure ctx env present emptyResponse = Configure ctx env absent emptyResponse)
  ∧ (∀ t, env !! "HOSTINGDE_AUTH_TOKEN" = Some t → t ≠ "" →
          IsUnknown (AccountId config) = false →
          Diagnostics (Configure ctx env absent emptyResponse).1 = []
          ∧ ResourceData (Configure ctx env absent emptyResponse).1
            = Some (NewClient (account_id (resolvedValues env config)) t
                      (base_url (resolvedValues env config)))
          ∧ DataSourceData (Configure ctx env absent emptyResponse).1
            = ResourceData (Configure ctx env absent emptyResponse).1
          ∧ (Configure ctx env present emptyResponse).1
            ≠ (Configure ctx env absent emptyResponse).1).
Proof.
  intros present absent.
  assert (auth_token (resolvedValues env (setAuthToken config (StringValue ""))) = "")
    as Hempty by reflexivity.
  split; [|split; [|split; [|split; [|split]]]].
  - intros Henv. apply Configure_ext; try reflexivity.
    cbn [absent present requestOf Config Get_model].
    unfold configuredValues, os.Getenv.
    cbn [setAuthToken AccountId AuthToken BaseUrl IsNull negb ValueString].
    by destruct Henv as [-> | ->].
  - subst present.
    destruct (Configure_outcome ctx env (requestOf (setAuthToken config (StringValue "")))
                emptyResponse) as [H|H Hu|H Ha Ht He|H Ha Ht He]; try reflexivity.
    by destruct He.
  - subst present.
    destruct (Configure_outcome ctx env (requestOf (setAuthToken config (StringValue "")))
                emptyResponse) as [H|H Hu|H Ha Ht He|H Ha Ht He]; try reflexivity.
    by destruct He.
  - intros Ha. subst present. by rewrite Configure_requestOf_missing.
  - intros Ha. subst present absent.
    rewrite !Configure_requestOf_unknown
      by (cbn [setAuthToken AccountId]; by rewrite Ha).
    unfold unknownDiagnostics. cbn [setAuthToken AccountId AuthToken]. by rewrite Ha.
  - intros t Henv Ht Ha. subst present absent.
    assert (auth_token (resolvedValues env (setAuthToken config StringNull)) = t) as Htok.
    { unfold resolvedValues, defaultedValues, configuredValues, os.Getenv.
      cbn [auth_token setAuthToken AuthToken IsNull negb]. by rewrite Henv. }
    rewrite (Configure_requestOf_success ctx env (setAuthToken config StringNull))
      by (try done; by rewrite Htok).
    rewrite (Configure_requestOf_missing ctx env (setAuthToken config (StringValue "")))
      by done.
    cbn [fst successResponse Diagnostics DataSourceData ResourceData].
    unfold clientOf. rewrite Htok. repeat split. discriminate.
Qed.

(** An empty environment, where the empty token and the absent token end
    alike, and an environment with a token, where the absent token
    succeeds. *)
Lemma C2_empty_token_witness :
  Configure tflog.Background ∅
    (requestOf (setAuthToken (mkModel StringNull StringNull StringNull) (StringValue "")))
    emptyResponse
  = Configure tflog.Background ∅
      (requestOf (setAuthToken (mkModel StringNull StringNull StringNull) StringNull))
      emptyResponse
  ∧ ResourceData
      (Configure tflog.Background {[ "HOSTINGDE_AUTH_TOKEN" := "tok2" ]}
         (requestOf (setAuthToken (mkModel StringNull StringNull StringNull) StringNull))
         emptyResponse).1
    = Some (NewClient "" "tok2" defaultBaseURL).
Proof.
  destruct (C2_empty_token tflog.Background ∅ (mkModel StringNull StringNull StringNull))
    as (H & _).
  destruct (C2_empty_token tflog.Background {[ "HOSTINGDE_AUTH_TOKEN" := "tok2" ]}
              (mkModel StringNull StringNull StringNull))
    as (_ & _ & _ & _ & _ & Henv).
  split.
  - apply H. left. vm_compute. reflexivity.
  - destruct (Henv "tok2") as (_ & Hr & _);
      [vm_compute; reflexivity | discriminate | reflexivity | exact Hr].
Defined.

(** C3, as stated, fails: with an unknown account id and the auth token
    missing from configuration and environment, [Configure] returns at line
    95 with the unknown-value error alone; the missing-required-value error
    is not among the diagnostics. *)
Lemma C3_counterexample :
  let config := mkModel StringUnknown StringNull StringNull in
  let out := (Configure tflog.Background ∅ (requestOf config) emptyResponse).1 in
  IsUnknown (AccountId config) = true
  ∧ auth_token (resolvedValues ∅ config) = ""
  ∧ Diagnostics out = [unknownAccountId]
  ∧ missingAuthToken ∉ Diagnostics out.
Proof.
  intros config out.
  assert (Diagnostics out = [unknownAccountId]) as Hout by (vm_compute; reflexivity).
  repeat split; try reflexivity; try exact Hout.
  rewrite Hout. intros Hin%list_elem_of_singleton. discriminate Hin.
Qed.

(** C3, amended. The failures of the unknown-value guard are collected
    together: when account id and auth token are both unknown, both
    unknown-value errors are reported by one invocation. The check for a
    missing auth token runs only once that guard has passed: whenever the
    account id or the auth token is unknown, the diagnostics are exactly the
    unknown-value errors and hold no missing-required-value error. *)
Theorem C3_unknown_errors_collected
    (ctx : tflog.Context) (env : gmap string string) (config : hostingdeProviderModel) :
  IsUnknown (AccountId config) || IsUnknown (AuthToken config) = true →
  let out := (Configure ctx env (requestOf config) emptyResponse).1 in
  Diagnostics out = unknownDiagnostics config
  ∧ (AccountId config = StringUnknown → AuthToken config = StringUnknown →
     Diagnostics out = [unknownAccountId; unknownAuthToken])
  ∧ (AccountId config = StringUnknown → AuthToken config ≠ StringUnknown →
     Diagnostics out = [unknownAccountId])
  ∧ (AccountId config ≠ StringUnknown → AuthToken config = StringUnknown →
     Diagnostics out = [unknownAuthToken])
  ∧ missingAuthToken ∉ Diagnostics out.
Proof.
  intros Hu out. subst out. rewrite Configure_requestOf_unknown by exact Hu.
  cbn [fst Diagnostics]. unfold unknownDiagnostics.
  split; [reflexivity|].
  destruct (AccountId config), (AuthToken config); try discriminate Hu;
    cbn [IsUnknown app]; repeat split; try congruence;
    intros Hin; repeat (apply elem_of_cons in Hin as [Hin|Hin]; [discriminate Hin|]);
    by apply elem_of_nil in Hin.
Qed.

(** Account id and auth token both unknown: both errors, in order. *)
Lemma C3_unknown_errors_collected_witness :
  Diagnostics
    (Configure tflog.Background ∅
       (requestOf (mkModel StringUnknown StringUnknown StringNull)) emptyResponse).1
  = [unknownAccountId; unknownAuthToken].
Proof.
  destruct (C3_unknown_errors_collected tflog.Background ∅
              (mkModel StringUnknown StringUnknown StringNull) eq_refl)
    as (_ & H & _).
  apply H; reflexivity.
Defined.

(** C4. Whenever resolution reports success, that is, a client handle is
    published in either shared-data slot, the auth token and the base URL
    of that client are non-empty strings. *)
Theorem C4_success_has_token_and_url
    (ctx : tflog.Context) (env : gmap string string) (req : ConfigureRequest) (c : Client) :
  DataSourceData (Configure ctx env req emptyResponse).1 = Some c
    ∨ ResourceData (Configure ctx env req emptyResponse).1 = Some c →
  client_auth_token c ≠ "" ∧ client_base_url c ≠ "".
Proof.
  destruct (Configure_outcome ctx env req emptyResponse) as [H|H Hu|H Ha Ht He|H Ha Ht He];
    cbn [fst withDiagnostics successResponse DataSourceData ResourceData emptyResponse].
  1-3: by intros [?|?].
  intros Hc. assert (c = clientOf (resolvedValues env (Get_model (Config req)))) as ->
    by (destruct Hc; congruence).
  split; [exact He | apply resolved_base_url_nonempty].
Qed.

(** Scenario A of the specification: the client has a token and a base URL. *)
Lemma C4_success_has_token_and_url_witness :
  client_auth_token (NewClient "acc1" "tok1" defaultBaseURL) ≠ ""
  ∧ client_base_url (NewClient "acc1" "tok1" defaultBaseURL) ≠ "".
Proof.
  apply (C4_success_has_token_and_url tflog.Background ∅
           (requestOf (mkModel (StringValue "acc1") (StringValue "tok1") (StringValue "")))).
  left. vm_compute. reflexivity.
Defined.

(** C5. If the base URL is empty or absent both in the configuration and in
    HOSTINGDE_BASE_URL, the resolved base URL is the default endpoint,
    byte for byte: it is the base URL of every client that [Configure]
    publishes, and [Configure] does publish a client with it, in both slots
    and without a diagnostic, whenever neither account id nor auth token is
    unknown and the auth token is not empty. *)
Theorem C5_default_endpoint
    (ctx : tflog.Context) (env : gmap string string) (config : hostingdeProviderModel) :
  BaseUrl config = StringNull ∨ BaseUrl config = StringValue "" →
  env !! "HOSTINGDE_BASE_URL" = None ∨ env !! "HOSTINGDE_BASE_URL" = Some "" →
  defaultBaseURL = "https://secure.hosting.de/api/dns/v1/json"
  ∧ base_url (resolvedValues env config) = "https://secure.hosting.de/api/dns/v1/json"
  ∧ (∀ c, ResourceData (Configure ctx env (requestOf config) emptyResponse).1 = Some c
          ∨ DataSourceData (Configure ctx env (requestOf config) emptyResponse).1 = Some c →
          client_base_url c = "https://secure.hosting.de/api/dns/v1/json")
  ∧ (IsUnknown (AccountId config) = false →
     IsUnknown (AuthToken config) = false →
     auth_token (configuredValues env config) ≠ "" →
     Diagnostics (Configure ctx env (requestOf config) emptyResponse).1 = []
     ∧ ResourceData (Configure ctx env (requestOf config) emptyResponse).1
       = Some (NewClient (account_id (configuredValues env config))
                 (auth_token (configuredValues env config))
                 "https://secure.hosting.de/api/dns/v1/json")
     ∧ DataSourceData (Configure ctx env (requestOf config) emptyResponse).1
       = ResourceData (Configure ctx env (requestOf config) emptyResponse).1).
Proof.
  intros Hcfg Henv.
  assert (base_url (resolvedValues env config) = defaultBaseURL) as Hurl.
  { unfold resolvedValues, defaultedValues, configuredValues, os.Getenv.
    cbn [base_url].
    destruct Hcfg as [-> | ->], Henv as [-> | ->]; reflexivity. }
  split; [reflexivity|]. split; [exact Hurl|]. split.
  - intros c.
    destruct (Configure_outcome ctx env (requestOf config) emptyResponse)
      as [H|H Hu|H Ha Ht He|H Ha Ht He];
      cbn [fst withDiagnostics successResponse DataSourceData ResourceData emptyResponse].
    1-3: by intros [?|?].
    cbn [requestOf Config Get_model].
    intros Hc. assert (c = clientOf (resolvedValues env config)) as ->
      by (destruct Hc; congruence).
    exact Hurl.
  - intros Ha Ht He. rewrite Configure_requestOf_success by done.
    cbn [fst Diagnostics DataSourceData ResourceData successResponse].
    unfold clientOf. rewrite Hurl. done.
Qed.

(** An empty base URL in the configuration, none in the environment: the
    client is published with the default endpoint. *)
Lemma C5_default_endpoint_witness :
  ResourceData
    (Configure tflog.Background {[ "HOSTINGDE_AUTH_TOKEN" := "tok2" ]}
       (requestOf (mkModel StringNull StringNull (StringValue ""))) emptyResponse).1
  = Some (NewClient "" "tok2" "https://secure.hosting.de/api/dns/v1/json").
Proof.
  assert (BaseUrl (mkModel StringNull StringNull (StringValue "")) = StringNull
          ∨ BaseUrl (mkModel StringNull StringNull (StringValue "")) = StringValue "")
    as Hcfg by (right; reflexivity).
  assert (({[ "HOSTINGDE_AUTH_TOKEN" := "tok2" ]} : gmap string string)
            !! "HOSTINGDE_BASE_URL" = None
          ∨ ({[ "HOSTINGDE_AUTH_TOKEN" := "tok2" ]} : gmap string string)
              !! "HOSTINGDE_BASE_URL" = Some "")
    as Henv by (left; vm_compute; reflexivity).
  destruct (C5_default_endpoint tflog.Background _ _ Hcfg Henv) as (_ & _ & _ & H).
  destruct H as (_ & Hr & _); [reflexivity | reflexivity | discriminate | exact Hr].
Defined.

(** C6. If the declared account id is unknown, the diagnostics hold the
    unknown-value error scoped to the path [account_id]; if the declared auth
    token is unknown, they hold the unknown-value error scoped to the path
    [auth_token]; and they hold nothing but the unknown-value errors of the
    attributes that are unknown. Either way resolution has failed and no
    client handle is published. *)
Theorem C6_unknown_value_guard
    (ctx : tflog.Context) (env : gmap string string) (config : hostingdeProviderModel) :
  AccountId config = StringUnknown ∨ AuthToken config = StringUnknown →
  let out := (Configure ctx env (requestOf config) emptyResponse).1 in
  (AccountId config = StringUnknown →
     unknownAccountId ∈ Diagnostics out
     ∧ diag.is_error unknownAccountId = true
     ∧ diag.AttrPath unknownAccountId = Some (path.Root "account_id"))
  ∧ (AuthToken config = StringUnknown →
     unknownAuthToken ∈ Diagnostics out
     ∧ diag.is_error unknownAuthToken = true
     ∧ diag.AttrPath unknownAuthToken = Some (path.Root "auth_token"))
  ∧ (∀ d, d ∈ Diagnostics out →
          (d = unknownAccountId ∧ AccountId config = StringUnknown)
          ∨ (d = unknownAuthToken ∧ AuthToken config = StringUnknown))
  ∧ diag.HasError (Diagnostics out) = true
  ∧ DataSourceData out = None
  ∧ ResourceData out = None.
Proof.
  intros Hu out. subst out.
  assert (IsUnknown (AccountId config) || IsUnknown (AuthToken config) = true) as Hor
    by (destruct Hu as [Hu | Hu]; rewrite Hu; cbn; by rewrite ?orb_true_r).
  rewrite Configure_requestOf_unknown by exact Hor.
  cbn [fst Diagnostics DataSourceData ResourceData].
  rewrite HasError_unknownDiagnostics. unfold unknownDiagnostics.
  split; [|split; [|split; [|split; [exact Hor | done]]]].
  - intros Ha. rewrite Ha. repeat split.
    apply elem_of_app. left. apply elem_of_cons. by left.
  - intros Ht. rewrite Ht. repeat split.
    apply elem_of_app. right. apply elem_of_cons. by left.
  - intros d [Hd|Hd]%elem_of_app.
    + left. destruct (AccountId config); try by apply elem_of_nil in Hd.
      by apply list_elem_of_singleton in Hd.
    + right. destruct (AuthToken config); try by apply elem_of_nil in Hd.
      by apply list_elem_of_singleton in Hd.
Qed.

(** Scenario D of the specification: the auth token is unknown. *)
Lemma C6_unknown_value_guard_witness :
  unknownAuthToken
    ∈ Diagnostics
        (Configure tflog.Background ∅
           (requestOf (mkModel StringNull StringUnknown StringNull)) emptyResponse).1.
Proof.
  destruct (C6_unknown_value_guard tflog.Background ∅
              (mkModel StringNull StringUnknown StringNull) (or_intror eq_refl))
    as (_ & Ht & _).
  apply Ht. reflexivity.
Defined.

(** C7. If the diagnostics that [Configure] returns hold an error, neither
    shared-data slot is written: both are as they were in the response
    handed in, and unset for the empty response of the framework. A client
    handle and error diagnostics are never returned together. *)
Theorem C7_no_client_with_errors
    (ctx : tflog.Context) (env : gmap string string)
    (req : ConfigureRequest) (resp : ConfigureResponse) :
  diag.HasError (Diagnostics (Configure ctx env req resp).1) = true →
  (DataSourceData (Configure ctx env req resp).1 = DataSourceData resp
   ∧ ResourceData (Configure ctx env req resp).1 = ResourceData resp)
  ∧ (resp = emptyResponse →
     DataSourceData (Configure ctx env req resp).1 = None
     ∧ ResourceData (Configure ctx env req resp).1 = None).
Proof.
  destruct (Configure_outcome ctx env req resp) as [H|H Hu|H Ha Ht He|H Ha Ht He];
    cbn [fst withDiagnostics successResponse Diagnostics DataSourceData ResourceData].
  1-3: by (intros _; split; [|intros ->]).
  intros Herr. congruence.
Qed.

(** Scenario C of the specification: nothing configured, nothing published. *)
Lemma C7_no_client_with_errors_witness :
  DataSourceData
    (Configure tflog.Background ∅
       (requestOf (mkModel StringNull StringNull StringNull)) emptyResponse).1 = None
  ∧ ResourceData
      (Configure tflog.Background ∅
         (requestOf (mkModel StringNull StringNull StringNull)) emptyResponse).1 = None.
Proof.
  apply (C7_no_client_with_errors tflog.Background ∅
           (requestOf (mkModel StringNull StringNull StringNull)) emptyResponse).
  - vm_compute. reflexivity.
  - reflexivity.
Defined.




(** C9. The published capability lists are fixed: in every invocation the
    list of data sources is empty and the list of resources holds exactly two
    constructors, the DNS zone resource and then the DNS record resource. *)
Theorem C9_capability_lists
    (DataSource Resource : Type) (NewZoneResource NewRecordResource : unit → Resource)
    (ctx : tflog.Context) :
  DataSources DataSource ctx = []
  ∧ Resources Resource NewZoneResource NewRecordResource ctx
    = [NewZoneResource; NewRecordResource]
  ∧ length (DataSources DataSource ctx) = 0
  ∧ length (Resources Resource NewZoneResource NewRecordResource ctx) = 2.
Proof. repeat split. Qed.

(** C10. If the declared base URL is unknown while account id and auth token
    are not, [Configure] reports nothing on the path [base_url]; the unknown
    value reads as the empty string and replaces whatever HOSTINGDE_BASE_URL
    holds, so the resolved base URL is the default endpoint, and it is the
    base URL of the client that is published when the auth token is not
    empty. *)
Theorem C10_unknown_base_url
    (ctx : tflog.Context) (env : gmap string string) (config : hostingdeProviderModel) :
  BaseUrl config = StringUnknown →
  IsUnknown (AccountId config) = false →
  IsUnknown (AuthToken config) = false →
  let out := (Configure ctx env (requestOf config) emptyResponse).1 in
  (∀ d, d ∈ Diagnostics out → diag.AttrPath d ≠ Some (path.Root "base_url"))
  ∧ base_url (configuredValues env config) = ""
  ∧ base_url (resolvedValues env config) = defaultBaseURL
  ∧ (auth_token (configuredValues env config) ≠ "" →
     Diagnostics out = []
     ∧ ResourceData out
       = Some (NewClient (account_id (configuredValues env config))
                 (auth_token (configuredValues env config)) defaultBaseURL)
     ∧ DataSourceData out = ResourceData out).
Proof.
  intros Hb Ha Ht out.
  assert (base_url (configuredValues env config) = "") as Hempty
    by (unfold configuredValues; cbn [base_url]; by rewrite Hb).
  assert (base_url (resolvedValues env config) = defaultBaseURL) as Hurl
    by (unfold resolvedValues, defaultedValues; cbn [base_url]; by rewrite Hempty).
  split; [|split; [done|split; [done|]]].
  - intros d. subst out.
    destruct (decide (auth_token (resolvedValues env config) = "")) as [He|He].
    + rewrite Configure_requestOf_missing by done. cbn [fst Diagnostics].
      intros ->%list_elem_of_singleton. discriminate.
    + rewrite Configure_requestOf_success by done. cbn [fst Diagnostics successResponse].
      by intros ?%elem_of_nil.
  - intros He. subst out. rewrite Configure_requestOf_success by done.
    cbn [fst Diagnostics DataSourceData ResourceData successResponse].
    unfold clientOf. rewrite Hurl. done.
Qed.

(** An unknown base URL hides the HOSTINGDE_BASE_URL that is set. *)
Lemma C10_unknown_base_url_witness :
  ResourceData
    (Configure tflog.Background {[ "HOSTINGDE_BASE_URL" := "https://env.example/api" ]}
       (requestOf (mkModel (StringValue "acc1") (StringValue "tok1") StringUnknown))
       emptyResponse).1
  = Some (NewClient "acc1" "tok1" defaultBaseURL).
Proof.
  destruct (C10_unknown_base_url tflog.Background
              {[ "HOSTINGDE_BASE_URL" := "https://env.example/api" ]}
              (mkModel (StringValue "acc1") (StringValue "tok1") StringUnknown)
              eq_refl eq_refl eq_refl)
    as (_ & _ & _ & H).
  apply H. discriminate.
Defined.

(** ** Further properties of the provider *)

(** [Append] keeps what the list held, in place. *)
Lemma Append_prefix (new : list diag.Diagnostic) :
  ∀ ds, ∃ rest, diag.Append ds new = ds ++ rest.
Proof.
  induction new as [|d new IH]; intros ds.
  - exists []. cbn. by rewrite app_nil_r.
  - rewrite Append_cons. destruct (diag.Contains ds d).
    + apply IH.
    + destruct (IH (ds ++ [d])) as [rest ->]. exists (d :: rest).
      by rewrite <- app_assoc.
Qed.

(** Every appended diagnostic is in the result. *)
Lemma Append_elem (new : list diag.Diagnostic) :
  ∀ ds d, d ∈ new → d ∈ diag.Append ds new.
Proof.
  induction new as [|d' new IH]; intros ds d Hin.
  - by apply elem_of_nil in Hin.
  - rewrite Append_cons. apply elem_of_cons in Hin as [->|Hin]; [|by apply IH].
    unfold diag.Contains. case_bool_decide as Hd.
    + destruct (Append_prefix new ds) as [rest ->]. apply elem_of_app. by left.
    + destruct (Append_prefix new (ds ++ [d'])) as [rest ->].
      apply elem_of_app. left. apply elem_of_app. right. apply elem_of_cons. by left.
Qed.

(** The decoded diagnostics hold an error exactly when the response or the
    decoding did. *)
Lemma HasError_decodedDiagnostics (req : ConfigureRequest) (resp : ConfigureResponse) :
  diag.HasError (decodedDiagnostics req resp)
  = diag.HasError (Diagnostics resp) || diag.HasError (Get_diags (Config req)).
Proof. apply Append_HasError. Qed.

(** The diagnostics of the result hold an error on every return but the
    last. *)
Lemma Configure_HasError (ctx : tflog.Context) (env : gmap string string)
    (req : ConfigureRequest) (resp : ConfigureResponse) :
  diag.HasError (Diagnostics (Configure ctx env req resp).1)
  = diag.HasError (decodedDiagnostics req resp)
    || IsUnknown (AccountId (Get_model (Config req)))
    || IsUnknown (AuthToken (Get_model (Config req)))
    || String.eqb (auth_token (resolvedValues env (Get_model (Config req)))) "".
Proof.
  destruct (Configure_outcome ctx env req resp) as [H|H Hu|H Ha Ht He|H Ha Ht He];
    cbn [fst withDiagnostics successResponse Diagnostics].
  - by rewrite H.
  - rewrite HasError_app, HasError_unknownDiagnostics, H.
    by destruct (IsUnknown (AccountId _)), (IsUnknown (AuthToken _)).
  - rewrite HasError_app, H, Ha, Ht, He. reflexivity.
  - apply String.eqb_neq in He. by rewrite H, Ha, Ht, He.
Qed.

(** X1. A failure of [Configure] is never silent: if the diagnostics it
    returns hold no error, it has published a client, the same one in both
    shared-data slots, made of the resolved values, with a non-empty auth
    token, and it has added no diagnostic of its own. *)
Theorem Configure_no_silent_failure
    (ctx : tflog.Context) (env : gmap string string)
    (req : ConfigureRequest) (resp : ConfigureResponse) :
  diag.HasError (Diagnostics (Configure ctx env req resp).1) = false →
  let c := clientOf (resolvedValues env (Get_model (Config req))) in
  DataSourceData (Configure ctx env req resp).1 = Some c
  ∧ ResourceData (Configure ctx env req resp).1 = Some c
  ∧ client_auth_token c ≠ ""
  ∧ Diagnostics (Configure ctx env req resp).1 = decodedDiagnostics req resp.
Proof.
  destruct (Configure_outcome ctx env req resp) as [H|H Hu|H Ha Ht He|H Ha Ht He];
    cbn [fst withDiagnostics successResponse Diagnostics DataSourceData ResourceData].
  - intros Hf. congruence.
  - rewrite HasError_app, HasError_unknownDiagnostics, Hu, orb_true_r. discriminate.
  - rewrite HasError_app, orb_true_r. discriminate.
  - intros _. by cbn [clientOf client_auth_token].
Qed.

(** A warning of the decoding does not stop [Configure]. *)
Lemma Configure_no_silent_failure_witness :
  let warning :=
    diag.mkDiagnostic diag.SeverityWarning "Deprecated" "Use another attribute." None in
  let req :=
    mkRequest (mkConfig [warning] (mkModel StringNull (StringValue "tok1") StringNull)) in
  ResourceData (Configure tflog.Background ∅ req emptyResponse).1
  = Some (NewClient "" "tok1" defaultBaseURL)
  ∧ Diagnostics (Configure tflog.Background ∅ req emptyResponse).1 = [warning].
Proof.
  intros warning req.
  assert (diag.HasError (Diagnostics (Configure tflog.Background ∅ req emptyResponse).1)
          = false) as Hok by (vm_compute; reflexivity).
  destruct (Configure_no_silent_failure tflog.Background ∅ req emptyResponse Hok)
    as (_ & Hr & _ & Hd).
  split; [exact Hr | exact Hd].
Defined.

(** X2. From the empty response, [Configure] publishes a client exactly when
    the decoding reported no error, neither account id nor auth token is
    unknown, and the auth token is not empty after lines 101-115. Account id
    and base URL never make it fail. *)
Theorem Configure_success_iff
    (ctx : tflog.Context) (env : gmap string string) (req : ConfigureRequest) :
  let config := Get_model (Config req) in
  is_Some (ResourceData (Configure ctx env req emptyResponse).1)
  ↔ diag.HasError (Get_diags (Config req)) = false
    ∧ AccountId config ≠ StringUnknown
    ∧ AuthToken config ≠ StringUnknown
    ∧ auth_token (configuredValues env config) ≠ "".
Proof.
  intros config. unfold config. clear config.
  assert (diag.HasError (decodedDiagnostics req emptyResponse)
          = diag.HasError (Get_diags (Config req))) as Hdec
    by (by rewrite HasError_decodedDiagnostics).
  destruct (Configure_outcome ctx env req emptyResponse)
    as [H|H Hu|H Ha Ht He|H Ha Ht He];
    cbn [fst withDiagnostics successResponse ResourceData emptyResponse];
    rewrite Hdec in H.
  - split; [by intros [? ?]|]. intros (Hd & _). congruence.
  - split; [by intros [? ?]|]. intros (_ & Ha & Ht & _).
    destruct (AccountId _), (AuthToken _); try discriminate Hu; congruence.
  - split; [by intros [? ?]|]. intros (_ & _ & _ & Hne). by destruct Hne.
  - split; [|by eauto]. intros _. repeat split; try done.
    + intros Heq. by rewrite Heq in Ha.
    + intros Heq. by rewrite Heq in Ht.
Qed.

(** An empty account id and no base URL: the token alone decides. *)
Lemma Configure_success_iff_witness :
  is_Some
    (ResourceData
       (Configure tflog.Background ∅
          (requestOf (mkModel (StringValue "") (StringValue "tok1") StringNull))
          emptyResponse).1).
Proof.
  apply (Configure_success_iff tflog.Background ∅
           (requestOf (mkModel (StringValue "") (StringValue "tok1") StringNull))).
  repeat split; discriminate.
Defined.

(** X3. A field that is null in the configuration falls back to its
    environment variable: every client that [Configure] publishes has the
    account id and the auth token of the environment (the empty string for an
    account id that is not set), and the base URL of the environment unless
    that is unset or empty, in which case it has the default endpoint. *)
Theorem Configure_environment_fallback
    (ctx : tflog.Context) (env : gmap string string) (req : ConfigureRequest) (c : Client) :
  ResourceData (Configure ctx env req emptyResponse).1 = Some c →
  let config := Get_model (Config req) in
  (AccountId config = StringNull →
     client_account_id c = default "" (env !! "HOSTINGDE_ACCOUNT_ID"))
  ∧ (AuthToken config = StringNull →
     env !! "HOSTINGDE_AUTH_TOKEN" = Some (client_auth_token c))
  ∧ (BaseUrl config = StringNull →
     ∀ u, env !! "HOSTINGDE_BASE_URL" = Some u → u ≠ "" → client_base_url c = u)
  ∧ (BaseUrl config = StringNull →
     env !! "HOSTINGDE_BASE_URL" = None ∨ env !! "HOSTINGDE_BASE_URL" = Some "" →
     client_base_url c = defaultBaseURL).
Proof.
  intros Hc config. unfold config. clear config.
  assert (c = clientOf (resolvedValues env (Get_model (Config req)))
          ∧ auth_token (resolvedValues env (Get_model (Config req))) ≠ "") as [-> Htok].
  { revert Hc.
    destruct (Configure_outcome ctx env req emptyResponse)
      as [H|H Hu|H Ha Ht He|H Ha Ht He];
      cbn [fst withDiagnostics successResponse ResourceData emptyResponse];
      intros Hc; [discriminate Hc..|].
    injection Hc as <-. by split. }
  revert Htok.
  unfold resolvedValues, defaultedValues, configuredValues, os.Getenv.
  cbn [clientOf client_account_id client_auth_token client_base_url
       account_id auth_token base_url].
  intros Htok. split; [|split; [|split]].
  - by intros ->.
  - intros Hnull. rewrite Hnull in Htok |- *. cbn [IsNull negb] in *.
    by destruct (env !! "HOSTINGDE_AUTH_TOKEN").
  - intros -> u -> Hu%String.eqb_neq. cbn. by rewrite Hu.
  - by intros -> [-> | ->].
Qed.

(** Scenario B of the specification with a base URL in the environment. *)
Lemma Configure_environment_fallback_witness :
  let env : gmap string string :=
    {[ "HOSTINGDE_AUTH_TOKEN" := "tok2"; "HOSTINGDE_BASE_URL" := "https://env.example/api" ]} in
  client_account_id (NewClient "" "tok2" "https://env.example/api") = ""
  ∧ env !! "HOSTINGDE_AUTH_TOKEN" = Some "tok2"
  ∧ client_base_url (NewClient "" "tok2" "https://env.example/api")
    = "https://env.example/api".
Proof.
  intros env.
  assert (ResourceData
            (Configure tflog.Background env
               (requestOf (mkModel StringNull StringNull StringNull)) emptyResponse).1
          = Some (NewClient "" "tok2" "https://env.example/api")) as Hc
    by (vm_compute; reflexivity).
  destruct (Configure_environment_fallback tflog.Background env _ _ Hc)
    as (Ha & Ht & Hu & _).
  split; [|split].
  - apply Ha. reflexivity.
  - apply Ht. reflexivity.
  - apply (Hu eq_refl "https://env.example/api"); [vm_compute; reflexivity | discriminate].
Defined.

(** X4. [Configure] reads three environment variables and nothing else of the
    environment: in two environments that agree on HOSTINGDE_ACCOUNT_ID,
    HOSTINGDE_AUTH_TOKEN and HOSTINGDE_BASE_URL it returns the same response
    and logs the same records. *)
Theorem Configure_reads_three_variables
    (ctx : tflog.Context) (env env' : gmap string string)
    (req : ConfigureRequest) (resp : ConfigureResponse) :
  env !! "HOSTINGDE_ACCOUNT_ID" = env' !! "HOSTINGDE_ACCOUNT_ID" →
  env !! "HOSTINGDE_AUTH_TOKEN" = env' !! "HOSTINGDE_AUTH_TOKEN" →
  env !! "HOSTINGDE_BASE_URL" = env' !! "HOSTINGDE_BASE_URL" →
  Configure ctx env req resp = Configure ctx env' req resp.
Proof.
  intros Ha Ht Hu. apply Configure_ext; try reflexivity.
  unfold configuredValues.
  by rewrite (Getenv_agree env env' _ Ha), (Getenv_agree env env' _ Ht),
    (Getenv_agree env env' _ Hu).
Qed.

(** Other variables of the process do not matter. *)
Lemma Configure_reads_three_variables_witness :
  Configure tflog.Background
    {[ "HOSTINGDE_AUTH_TOKEN" := "tok2"; "HOME" := "/root"; "TF_LOG" := "DEBUG" ]}
    (requestOf (mkModel StringNull StringNull StringNull)) emptyResponse
  = Configure tflog.Background {[ "HOSTINGDE_AUTH_TOKEN" := "tok2" ]}
      (requestOf (mkModel StringNull StringNull StringNull)) emptyResponse.
Proof.
  apply Configure_reads_three_variables; vm_compute; reflexivity.
Defined.

(** What [Append] adds comes after what the list held and is taken from the
    appended diagnostics. *)
Lemma Append_prefix_from (new : list diag.Diagnostic) :
  ∀ ds, ∃ kept, diag.Append ds new = ds ++ kept ∧ ∀ d, d ∈ kept → d ∈ new.
Proof.
  induction new as [|d new IH]; intros ds.
  - exists []. split; [cbn; by rewrite app_nil_r|]. by intros d ?%elem_of_nil.
  - rewrite Append_cons. destruct (diag.Contains ds d).
    + destruct (IH ds) as (kept & -> & Hkept). exists kept. split; [done|].
      intros d' Hd'. apply elem_of_cons. right. by apply Hkept.
    + destruct (IH (ds ++ [d])) as (kept & -> & Hkept). exists (d :: kept).
      split; [by rewrite <- app_assoc|].
      intros d' [->|Hd']%elem_of_cons; apply elem_of_cons; [by left|].
      right. by apply Hkept.
Qed.

(** X5. [Configure] only ever adds to the diagnostics. Those of the response
    it is handed stay in place at the front; then come diagnostics of the
    decoding, and every diagnostic of the decoding is there; and after these
    [Configure] adds nothing, or the unknown-value error of the account id, of
    the auth token or of both in this order, or the missing-auth-token error:
    at most two diagnostics, each an error scoped to the attribute
    [account_id] or [auth_token]. *)
Theorem Configure_diagnostics_extend
    (ctx : tflog.Context) (env : gmap string string)
    (req : ConfigureRequest) (resp : ConfigureResponse) :
  let decoded := diag.Append (Diagnostics resp) (Get_diags (Config req)) in
  (∃ kept, decoded = Diagnostics resp ++ kept
           ∧ ∀ d, d ∈ kept → d ∈ Get_diags (Config req))
  ∧ (∀ d, d ∈ Get_diags (Config req) → d ∈ decoded)
  ∧ ∃ added,
      Diagnostics (Configure ctx env req resp).1 = decoded ++ added
      ∧ (added = [] ∨ added = [unknownAccountId] ∨ added = [unknownAuthToken]
         ∨ added = [unknownAccountId; unknownAuthToken] ∨ added = [missingAuthToken])
      ∧ length added ≤ 2
      ∧ ∀ d, d ∈ added →
          diag.is_error d = true
          ∧ (diag.AttrPath d = Some (path.Root "account_id")
             ∨ diag.AttrPath d = Some (path.Root "auth_token")).
Proof.
  intros decoded. subst decoded.
  split; [apply Append_prefix_from|]. split; [intros d; apply Append_elem|].
  fold (decodedDiagnostics req resp).
  assert (∀ added,
            added = [] ∨ added = [unknownAccountId] ∨ added = [unknownAuthToken]
            ∨ added = [unknownAccountId; unknownAuthToken] ∨ added = [missingAuthToken] →
            length added ≤ 2
            ∧ ∀ d, d ∈ added →
                diag.is_error d = true
                ∧ (diag.AttrPath d = Some (path.Root "account_id")
                   ∨ diag.AttrPath d = Some (path.Root "auth_token"))) as Hshape.
  { intros added [-> | [-> | [-> | [-> | ->]]]]; (split; [cbn; lia|]); intros d Hd;
      repeat (apply elem_of_cons in Hd as [->|Hd]; [split; [done|]; by eauto|]);
      by apply elem_of_nil in Hd. }
  destruct (Configure_outcome ctx env req resp) as [H|H Hu|H Ha Ht He|H Ha Ht He];
    cbn [fst withDiagnostics successResponse Diagnostics].
  - exists []. rewrite app_nil_r. split; [done|]. split; [by left|]. apply Hshape. by left.
  - exists (unknownDiagnostics (Get_model (Config req))). split; [done|].
    assert (unknownDiagnostics (Get_model (Config req)) = [unknownAccountId]
            ∨ unknownDiagnostics (Get_model (Config req)) = [unknownAuthToken]
            ∨ unknownDiagnostics (Get_model (Config req))
              = [unknownAccountId; unknownAuthToken]) as Hcases.
    { unfold unknownDiagnostics.
      destruct (IsUnknown (AccountId _)), (IsUnknown (AuthToken _));
        try discriminate Hu; cbn [app]; auto. }
    assert (unknownDiagnostics (Get_model (Config req)) = []
            ∨ unknownDiagnostics (Get_model (Config req)) = [unknownAccountId]
            ∨ unknownDiagnostics (Get_model (Config req)) = [unknownAuthToken]
            ∨ unknownDiagnostics (Get_model (Config req))
              = [unknownAccountId; unknownAuthToken]
            ∨ unknownDiagnostics (Get_model (Config req)) = [missingAuthToken]) as Hall
      by (destruct Hcases as [?|[?|?]]; auto).
    split; [exact Hall|]. by apply Hshape.
  - exists [missingAuthToken]. split; [done|]. split; [by do 4 right|].
    apply Hshape. by do 4 right.
  - exists []. rewrite app_nil_r. split; [done|]. split; [by left|]. apply Hshape. by left.
Qed.

(** X6. Once the response holds an error, or the decoding reports one,
    [Configure] returns at line 71 without reading the configuration or the
    environment: whatever the model and the environment are, it returns the
    same response, with both slots as they were, and logs the first record
    only. *)
Theorem Configure_returns_on_decode_error
    (ctx : tflog.Context) (env env' : gmap string string)
    (req : ConfigureRequest) (resp : ConfigureResponse) (config' : hostingdeProviderModel) :
  diag.HasError (Diagnostics resp) = true
    ∨ diag.HasError (Get_diags (Config req)) = true →
  Configure ctx env' (setModel req config') resp = Configure ctx env req resp
  ∧ DataSourceData (Configure ctx env req resp).1 = DataSourceData resp
  ∧ ResourceData (Configure ctx env req resp).1 = ResourceData resp
  ∧ (Configure ctx env req resp).2 = [tflog.Info ctx "Configuring hosting.de client" ∅].
Proof.
  intros Herr.
  assert (diag.HasError (decodedDiagnostics req resp) = true) as H.
  { rewrite HasError_decodedDiagnostics.
    destruct Herr as [-> | ->]; by rewrite ?orb_true_r. }
  rewrite (Configure_decode_error ctx env req resp H).
  rewrite (Configure_decode_error ctx env' (setModel req config') resp) by exact H.
  done.
Qed.

(** A type error of the decoding: the unknown auth token is not reported. *)
Lemma Configure_returns_on_decode_error_witness :
  let failure :=
    diag.mkDiagnostic diag.SeverityError "Value Conversion Error" "Expected a string." None in
  Diagnostics
    (Configure tflog.Background ∅
       (mkRequest (mkConfig [failure] (mkModel StringNull StringUnknown StringNull)))
       emptyResponse).1
  = [failure].
Proof.
  intros failure.
  destruct (Configure_returns_on_decode_error tflog.Background ∅
              {[ "HOSTINGDE_AUTH_TOKEN" := "tok2" ]}
              (mkRequest (mkConfig [failure] (mkModel StringNull StringUnknown StringNull)))
              emptyResponse (mkModel StringNull StringNull StringNull)
              (or_intror eq_refl)) as (Heq & _).
  rewrite <- Heq. vm_compute. reflexivity.
Defined.

(** Without omit options no record is omitted. *)
Lemma ShouldOmit_no_options (ctx : tflog.Context) (m : string)
    (fs : gmap string tflog.Value) :
  tflog.OmitLogWithFieldKeys ctx = [] →
  tflog.OmitLogWithMessageRegexes ctx = [] →
  tflog.OmitLogWithMessageStrings ctx = [] →
  tflog.ShouldOmit ctx m fs = false.
Proof. unfold tflog.ShouldOmit. by intros -> -> ->. Qed.

(** With a root logger that admits the level and no omit options, a log call
    writes its record. *)
Lemma emit_written (l threshold : tflog.Level) (ctx : tflog.Context) (m : string)
    (additional : gmap string tflog.Value) :
  tflog.RootLogger ctx = Some threshold →
  tflog.levelNumber threshold ≤ tflog.levelNumber l →
  tflog.OmitLogWithFieldKeys ctx = [] →
  tflog.OmitLogWithMessageRegexes ctx = [] →
  tflog.OmitLogWithMessageStrings ctx = [] →
  tflog.emit l ctx m additional
  = Some {| tflog.level := l; tflog.msg := m;
            tflog.fields :=
              tflog.ApplyMask (tflog.MaskedKeys ctx) (additional ∪ tflog.Fields ctx) |}.
Proof.
  intros Hlog Hle Hk Hr Hs. unfold tflog.emit.
  rewrite Hlog, ShouldOmit_no_options by done.
  destruct (_ <? _) eqn:Hlt; [|done]. apply Nat.ltb_lt in Hlt. lia.
Qed.

(** X7. The log calls tell how [Configure] ended. If the diagnostics it
    returns hold an error it has made one log call, the info call of line 65
    on the context it was handed. Otherwise it has made three: that call, the
    debug call of line 143 and the info call of line 153 with the field
    [success], both on the context with the three fields set and the auth
    token key masked. A call writes no record when the context has no root
    logger. When the context has a root logger at level trace or debug and no
    omit options, every call writes its record: on success three records,
    info, debug, info, with the messages of the calls, the last with
    [success] true unless the context masks that key. *)
Theorem Configure_log_shape
    (ctx : tflog.Context) (env : gmap string string)
    (req : ConfigureRequest) (resp : ConfigureResponse) :
  let out := Configure ctx env req resp in
  let ctx' := clientContext ctx (resolvedValues env (Get_model (Config req))) in
  (diag.HasError (Diagnostics out.1) = true →
     out.2 = [tflog.Info ctx "Configuring hosting.de client" ∅])
  ∧ (diag.HasError (Diagnostics out.1) = false →
     out.2 = [tflog.Info ctx "Configuring hosting.de client" ∅;
              tflog.Debug ctx' "Creating hosting.de client" ∅;
              tflog.Info ctx' "Configured hosting.de client"
                {["success" := tflog.VBool true]}])
  ∧ (tflog.RootLogger ctx = None → writtenRecords out.2 = [])
  ∧ (∀ threshold,
       tflog.RootLogger ctx = Some threshold →
       threshold = tflog.LTrace ∨ threshold = tflog.LDebug →
       tflog.OmitLogWithFieldKeys ctx = [] →
       tflog.OmitLogWithMessageRegexes ctx = [] →
       tflog.OmitLogWithMessageStrings ctx = [] →
       diag.HasError (Diagnostics out.1) = false →
       tflog.msg <$> writtenRecords out.2
       = ["Configuring hosting.de client"; "Creating hosting.de client";
          "Configured hosting.de client"]
       ∧ tflog.level <$> writtenRecords out.2 = [tflog.LInfo; tflog.LDebug; tflog.LInfo]
       ∧ ∀ r, last (writtenRecords out.2) = Some r →
              "success" ∉ tflog.MaskedKeys ctx →
              tflog.fields r !! "success" = Some (tflog.VBool true)).
Proof.
  intros out ctx'. subst out ctx'.
  assert (diag.HasError (Diagnostics (Configure ctx env req resp).1) = false →
          (Configure ctx env req resp).2
          = successLog ctx (resolvedValues env (Get_model (Config req)))) as Hsuccess.
  { destruct (Configure_outcome ctx env req resp) as [H|H Hu|H Ha Ht He|H Ha Ht He];
      cbn [fst snd withDiagnostics successResponse Diagnostics].
    - intros Hf. congruence.
    - rewrite HasError_app, HasError_unknownDiagnostics, Hu, orb_true_r. discriminate.
    - rewrite HasError_app, orb_true_r. discriminate.
    - done. }
  split; [|split; [exact Hsuccess|split]].
  - destruct (Configure_outcome ctx env req resp) as [H|H Hu|H Ha Ht He|H Ha Ht He];
      cbn [fst snd withDiagnostics successResponse Diagnostics]; try done.
    apply String.eqb_neq in He. rewrite H. intros Hf. discriminate Hf.
  - intros Hnone.
    assert (∀ l c m a, tflog.RootLogger c = None → tflog.emit l c m a = None) as Hno
      by (intros l c m a Hc; unfold tflog.emit; by rewrite Hc).
    destruct (Configure_outcome ctx env req resp) as [H|H Hu|H Ha Ht He|H Ha Ht He];
      cbn [snd]; unfold successLog, configuringRecord, creatingRecord, configuredRecord,
        tflog.Info, tflog.Debug; by rewrite !Hno.
  - intros threshold Hlog Hlevel Hk Hr Hs Hok. rewrite (Hsuccess Hok).
    unfold successLog, configuringRecord, creatingRecord, configuredRecord,
      tflog.Info, tflog.Debug.
    rewrite !(emit_written _ threshold)
      by (try done; destruct Hlevel as [-> | ->]; cbn; lia).
    cbn [writtenRecords omap list_omap id fmap list_fmap tflog.msg tflog.level last].
    split; [done|]. split; [done|].
    intros r [= <-] Hmask. cbn [tflog.fields].
    rewrite lookup_ApplyMask, bool_decide_eq_false_2.
    + apply lookup_union_Some_l, lookup_singleton_eq.
    + cbn [clientContext tflog.MaskFieldValuesWithFieldKeys tflog.MaskedKeys].
      intros [Hin|Hin]%elem_of_app; [by destruct Hmask|].
      by apply list_elem_of_singleton in Hin.
Qed.

(** Scenario A of the specification: three records with a root logger at
    level trace, none on the background context. *)
Lemma Configure_log_shape_witness :
  let req :=
    requestOf (mkModel (StringValue "acc1") (StringValue "tok1") (StringValue "")) in
  tflog.level
    <$> writtenRecords
          (Configure (tfsdklog.NewRootProviderLogger tflog.Background tflog.LTrace) ∅
             req emptyResponse).2
  = [tflog.LInfo; tflog.LDebug; tflog.LInfo]
  ∧ writtenRecords (Configure tflog.Background ∅ req emptyResponse).2 = [].
Proof.
  intros req.
  destruct (Configure_log_shape
              (tfsdklog.NewRootProviderLogger tflog.Background tflog.LTrace) ∅
              req emptyResponse) as (_ & _ & _ & Hall).
  destruct (Configure_log_shape tflog.Background ∅ req emptyResponse)
    as (_ & _ & Hnone & _).
  assert (diag.HasError
            (Diagnostics
               (Configure (tfsdklog.NewRootProviderLogger tflog.Background tflog.LTrace) ∅
                  req emptyResponse).1) = false) as Hok by (vm_compute; reflexivity).
  split.
  - destruct (Hall tflog.LTrace eq_refl (or_introl eq_refl) eq_refl eq_refl eq_refl Hok)
      as (_ & Hlevel & _).
    exact Hlevel.
  - apply Hnone. reflexivity.
Defined.

(** A warning in the response, a warning of the decoding, an unknown account
    id: the warnings stay and one error is added. *)
Lemma Configure_diagnostics_extend_witness :
  let held := diag.mkDiagnostic diag.SeverityWarning "Held" "Already there." None in
  let warning :=
    diag.mkDiagnostic diag.SeverityWarning "Deprecated" "Use another attribute." None in
  let req :=
    mkRequest (mkConfig [warning] (mkModel StringUnknown StringNull StringNull)) in
  let resp := mkResponse [held] None None in
  warning ∈ Diagnostics (Configure tflog.Background ∅ req resp).1
  ∧ length (Diagnostics (Configure tflog.Background ∅ req resp).1)
    ≤ length (diag.Append [held] [warning]) + 2.
Proof.
  intros held warning req resp.
  destruct (Configure_diagnostics_extend tflog.Background ∅ req resp)
    as (_ & Hkept & added & Heq & _ & Hlen & _).
  rewrite Heq. split.
  - apply elem_of_app. left. apply Hkept. apply elem_of_cons. by left.
  - rewrite length_app. cbn [Diagnostics resp req Config Get_diags]. lia.
Defined.

(** The records after line 141 are the two that carry the client context. *)
Lemma clientRecords_success (ctx : tflog.Context) (env : gmap string string)
    (req : ConfigureRequest) (resp : ConfigureResponse) (r : tflog.Record_) :
  diag.HasError (Diagnostics (Configure ctx env req resp).1) = false →
  r ∈ clientRecords (Configure ctx env req resp).2 →
  ∃ additional,
    tflog.fields r
    = tflog.ApplyMask
        (tflog.MaskedKeys ctx ++ ["hostingde_auth_token"])
        (additional
         ∪ tflog.Fields (clientContext ctx (resolvedValues env (Get_model (Config req)))))
    ∧ ∀ k, is_Some (additional !! k) → k = "success".
Proof.
  destruct (Configure_outcome ctx env req resp) as [H|H Hu|H Ha Ht He|H Ha Ht He];
    cbn [fst snd withDiagnostics successResponse Diagnostics].
  - intros Hf. congruence.
  - rewrite HasError_app, HasError_unknownDiagnostics, Hu, orb_true_r. discriminate.
  - rewrite HasError_app, orb_true_r. discriminate.
  - intros _. apply successLog_clientRecords.
Qed.



(** X9. With a decoded configuration in which nothing is unknown, an auth
    token that is absent from the configuration and unset or empty in the
    environment, or present but empty in the configuration, makes [Configure]
    return exactly one diagnostic, the missing-auth-token error scoped to
    [auth_token], publish nothing and log the first record only, whatever the
    account id and the base URL are. *)
Theorem Configure_missing_auth_token
    (ctx : tflog.Context) (env : gmap string string) (config : hostingdeProviderModel) :
  AccountId config ≠ StringUnknown →
  (AuthToken config = StringNull
   ∧ (env !! "HOSTINGDE_AUTH_TOKEN" = None ∨ env !! "HOSTINGDE_AUTH_TOKEN" = Some ""))
  ∨ AuthToken config = StringValue "" →
  Configure ctx env (requestOf config) emptyResponse
  = ({| Diagnostics :=
          [diag.mkDiagnostic diag.SeverityError "Missing hosting.de API auth token"
             (diag.Detail missingAuthToken) (Some (path.Root "auth_token"))];
        DataSourceData := None;
        ResourceData := None |},
     [tflog.Info ctx "Configuring hosting.de client" ∅]).
Proof.
  intros Ha Htok.
  rewrite Configure_requestOf_missing; [done| | |].
  - by destruct (AccountId config).
  - by destruct Htok as [[-> _] | ->].
  - unfold resolvedValues, defaultedValues, configuredValues, os.Getenv.
    cbn [auth_token]. by destruct Htok as [[-> [-> | ->]] | ->].
Qed.

(** Scenario C of the specification, with an account id and a base URL. *)
Lemma Configure_missing_auth_token_witness :
  Diagnostics
    (Configure tflog.Background {[ "HOSTINGDE_AUTH_TOKEN" := "" ]}
       (requestOf (mkModel (StringValue "acc1") StringNull (StringValue "https://cfg.example/api")))
       emptyResponse).1
  = [missingAuthToken].
Proof.
  rewrite (Configure_missing_auth_token tflog.Background {[ "HOSTINGDE_AUTH_TOKEN" := "" ]}
             (mkModel (StringValue "acc1") StringNull (StringValue "https://cfg.example/api"))).
  - reflexivity.
  - discriminate.
  - left. split; [reflexivity|]. right. vm_compute. reflexivity.
Defined.

(** What [Append] returns comes from one of its two arguments. *)
Lemma Append_elem_inv (new : list diag.Diagnostic) :
  ∀ ds d, d ∈ diag.Append ds new → d ∈ ds ∨ d ∈ new.
Proof.
  induction new as [|d' new IH]; intros ds d Hin; [by left|].
  rewrite Append_cons in Hin. apply IH in Hin as [Hin|Hin].
  - destruct (diag.Contains ds d'); [by left|].
    apply elem_of_app in Hin as [Hin|Hin]; [by left|].
    right. apply list_elem_of_singleton in Hin as ->. apply elem_of_cons. by left.
  - right. apply elem_of_cons. by right.
Qed.

(** The three attributes of the schema. *)
Lemma Schema_attribute_cases (resp : SchemaResponse) (k : string)
    (a : schema.StringAttribute) :
  schema.Attributes (Schema_of (Schema resp)) !! k = Some a →
  (k = "account_id" ∧ schema.Sensitive a = false
   ∨ k = "auth_token" ∧ schema.Sensitive a = true
   ∨ k = "base_url" ∧ schema.Sensitive a = false)
  ∧ schema.Optional a = true ∧ schema.Required a = false.
Proof.
  cbn [Schema Schema_of schema.Attributes].
  intros [[<- <-]|[_ [[<- <-]|[_ [<- <-]%lookup_singleton_Some]]%lookup_insert_Some]]
    %lookup_insert_Some; split; auto.
Qed.

(** X10. Every diagnostic in the response that [Configure] returns was in the
    response it was handed, or comes from the decoding, or is scoped to an
    attribute that [Schema] declares; that attribute is optional in the
    schema, so the schema itself never rejects a configuration for leaving it
    out. *)
Theorem Configure_diagnostics_name_schema_attributes
    (ctx : tflog.Context) (env : gmap string string)
    (req : ConfigureRequest) (resp : ConfigureResponse) (sresp : SchemaResponse)
    (d : diag.Diagnostic) :
  d ∈ Diagnostics (Configure ctx env req resp).1 →
  d ∈ Diagnostics resp
  ∨ d ∈ Get_diags (Config req)
  ∨ ∃ k a, diag.AttrPath d = Some (path.Root k)
           ∧ schema.Attributes (Schema_of (Schema sresp)) !! k = Some a
           ∧ schema.Optional a = true
           ∧ schema.Required a = false.
Proof.
  assert (∀ d', d' ∈ decodedDiagnostics req resp →
                d' ∈ Diagnostics resp ∨ d' ∈ Get_diags (Config req)) as Hdec
    by (intros d'; apply Append_elem_inv).
  assert (∀ k, k = "account_id" ∨ k = "auth_token" →
               ∃ a, schema.Attributes (Schema_of (Schema sresp)) !! k = Some a
                    ∧ schema.Optional a = true ∧ schema.Required a = false) as Hattr.
  { intros k [-> | ->]; eexists; (split; [vm_compute; reflexivity|done]). }
  destruct (Configure_outcome ctx env req resp) as [H|H Hu|H Ha Ht He|H Ha Ht He];
    cbn [fst withDiagnostics successResponse Diagnostics]; intros Hin.
  - destruct (Hdec d Hin); auto.
  - apply elem_of_app in Hin as [Hin|Hin]; [destruct (Hdec d Hin); auto|].
    right. right. unfold unknownDiagnostics in Hin.
    apply elem_of_app in Hin as [Hin|Hin].
    + destruct (IsUnknown (AccountId _)); [|by apply elem_of_nil in Hin].
      apply list_elem_of_singleton in Hin as ->.
      destruct (Hattr "account_id") as (a & ? & ? & ?); [by left|]. by exists "account_id", a.
    + destruct (IsUnknown (AuthToken _)); [|by apply elem_of_nil in Hin].
      apply list_elem_of_singleton in Hin as ->.
      destruct (Hattr "auth_token") as (a & ? & ? & ?); [by right|]. by exists "auth_token", a.
  - apply elem_of_app in Hin as [Hin|Hin]; [destruct (Hdec d Hin); auto|].
    right. right. apply list_elem_of_singleton in Hin as ->.
    destruct (Hattr "auth_token") as (a & ? & ? & ?); [by right|]. by exists "auth_token", a.
  - destruct (Hdec d Hin); auto.
Qed.

(** Scenario C of the specification: the error names the attribute
    [auth_token] of the schema. *)
Lemma Configure_diagnostics_name_schema_attributes_witness :
  ∃ k a, diag.AttrPath missingAuthToken = Some (path.Root k)
         ∧ schema.Attributes (Schema_of (Schema (mkSchemaResponse (schema.mkSchema ∅) [])))
           !! k = Some a
         ∧ schema.Optional a = true
         ∧ schema.Required a = false.
Proof.
  destruct (Configure_diagnostics_name_schema_attributes tflog.Background ∅
              (requestOf (mkModel StringNull StringNull StringNull)) emptyResponse
              (mkSchemaResponse (schema.mkSchema ∅) []) missingAuthToken)
    as [Hin|[Hin|H]].
  - vm_compute. apply elem_of_cons. by left.
  - by apply elem_of_nil in Hin.
  - by apply elem_of_nil in Hin.
  - exact H.
Defined.

(** X11. Every attribute that [Schema] declares is logged, when [Configure]
    succeeds, in each of the two records after line 141, under the provider
    type name of [Metadata], an underscore and the attribute name; and if the
    schema marks the attribute sensitive, the field shows the mask instead of
    the value. *)
Theorem Configure_logs_schema_attributes
    (ctx : tflog.Context) (env : gmap string string)
    (req : ConfigureRequest) (resp : ConfigureResponse)
    (sresp : SchemaResponse) (mresp : MetadataResponse)
    (k : string) (a : schema.StringAttribute) (r : tflog.Record_) :
  schema.Attributes (Schema_of (Schema sresp)) !! k = Some a →
  diag.HasError (Diagnostics (Configure ctx env req resp).1) = false →
  r ∈ clientRecords (Configure ctx env req resp).2 →
  is_Some (tflog.fields r !! logFieldOf (TypeName (Metadata mresp)) k)
  ∧ (schema.Sensitive a = true →
     tflog.fields r !! logFieldOf (TypeName (Metadata mresp)) k
     = Some (tflog.VString "***")).
Proof.
  intros Hattr Hok Hr.
  destruct (clientRecords_success ctx env req resp r Hok Hr) as (additional & -> & Hadd).
  destruct (clientContext_fields ctx (resolvedValues env (Get_model (Config req))))
    as (Ha & Ht & Hu).
  assert (∀ k, k ≠ "success" → additional !! k = None) as Hnone.
  { intros k' Hk. destruct (additional !! k') eqn:E; [|done].
    destruct Hk. apply Hadd. by eexists. }
  destruct (Schema_attribute_cases sresp k a Hattr)
    as ([[-> Hs]|[[-> Hs]|[-> Hs]]] & _);
    rewrite Hs; cbn [Metadata TypeName];
    match goal with
    | |- context [logFieldOf ?t ?n] =>
        let key := eval vm_compute in (logFieldOf t n) in
        change (logFieldOf t n) with key
    end;
    rewrite lookup_ApplyMask, lookup_union, Hnone by done.
  - rewrite Ha. split; [by case_bool_decide|discriminate].
  - rewrite Ht. rewrite bool_decide_eq_true_2
      by (apply elem_of_app; right; apply elem_of_cons; by left).
    split; [by eexists|done].
  - rewrite Hu. split; [by case_bool_decide|discriminate].
Qed.

(** Scenario A of the specification with a root logger: the sensitive
    attribute [auth_token] is masked in both records. *)
Lemma Configure_logs_schema_attributes_witness :
  let ctx := tfsdklog.NewRootProviderLogger tflog.Background tflog.LTrace in
  let req :=
    requestOf (mkModel (StringValue "acc1") (StringValue "tok1") (StringValue "")) in
  length (clientRecords (Configure ctx ∅ req emptyResponse).2) = 2
  ∧ Forall
      (fun r => tflog.fields r !! "hostingde_auth_token" = Some (tflog.VString "***"))
      (clientRecords (Configure ctx ∅ req emptyResponse).2).
Proof.
  intros ctx req.
  assert (diag.HasError (Diagnostics (Configure ctx ∅ req emptyResponse).1) = false)
    as Hok by (vm_compute; reflexivity).
  assert (schema.Attributes (Schema_of (Schema (mkSchemaResponse (schema.mkSchema ∅) [])))
            !! "auth_token"
          = Some (schema.mkStringAttribute
                    "Auth token for hosting.de API. May also be provided via HOSTINGDE_AUTH_TOKEN environment variable."
                    false true true)) as Hattr by (vm_compute; reflexivity).
  split; [vm_compute; reflexivity|].
  apply Forall_forall. intros r Hr.
  destruct (Configure_logs_schema_attributes ctx ∅ req emptyResponse
              _ (mkMetadataResponse "" "") _ _ r Hattr Hok Hr) as (_ & Hmask).
  apply Hmask. reflexivity.
Defined.

(** X12. The unknown-value guard comes before the environment is read: when
    the account id or the auth token is unknown, [Configure] returns the same
    response and log in every environment, also in one that supplies
    HOSTINGDE_ACCOUNT_ID and HOSTINGDE_AUTH_TOKEN, and it publishes
    nothing. *)
Theorem Configure_unknown_ignores_environment
    (ctx : tflog.Context) (env env' : gmap string string)
    (req : ConfigureRequest) (resp : ConfigureResponse) :
  AccountId (Get_model (Config req)) = StringUnknown
    ∨ AuthToken (Get_model (Config req)) = StringUnknown →
  Configure ctx env req resp = Configure ctx env' req resp
  ∧ DataSourceData (Configure ctx env req resp).1 = DataSourceData resp
  ∧ ResourceData (Configure ctx env req resp).1 = ResourceData resp.
Proof.
  intros Hu.
  assert (IsUnknown (AccountId (Get_model (Config req)))
          || IsUnknown (AuthToken (Get_model (Config req))) = true) as Hor
    by (destruct Hu as [Hu | Hu]; rewrite Hu; cbn; by rewrite ?orb_true_r).
  destruct (diag.HasError (decodedDiagnostics req resp)) eqn:H.
  - by rewrite !Configure_decode_error by done.
  - by rewrite !Configure_unknown by done.
Qed.

(** An unknown account id is not replaced by HOSTINGDE_ACCOUNT_ID. *)
Lemma Configure_unknown_ignores_environment_witness :
  Configure tflog.Background
    {[ "HOSTINGDE_ACCOUNT_ID" := "env-acc"; "HOSTINGDE_AUTH_TOKEN" := "env-tok" ]}
    (requestOf (mkModel StringUnknown StringNull StringNull)) emptyResponse
  = Configure tflog.Background ∅
      (requestOf (mkModel StringUnknown StringNull StringNull)) emptyResponse.
Proof.
  apply (Configure_unknown_ignores_environment tflog.Background
           {[ "HOSTINGDE_ACCOUNT_ID" := "env-acc"; "HOSTINGDE_AUTH_TOKEN" := "env-tok" ]} ∅
           (requestOf (mkModel StringUnknown StringNull StringNull)) emptyResponse).
  left. reflexivity.
Defined.
